(** * tmt: the Execute and Report steps

    A shallow embedding of [tmt/steps/execute/__init__.py] and
    [tmt/steps/report/__init__.py], and the properties of the step
    pipeline that the specification states about them.

    Python objects are records, dictionaries are finite maps ([gmap]) or,
    where the insertion order is observable, association lists.  Methods
    that mutate [self], write files or print are computations in a
    state-and-exception monad whose state survives a raised exception,
    as the fields of a Python object do. *)

From stdpp Require Import gmap strings list pretty.
From Stdlib Require Import ZArith Ascii.

Open Scope string_scope.
Open Scope Z_scope.

(** ** Python strings and paths *)

Module Py.

(** The line feed and the double quote. *)
Definition LF : ascii := ascii_of_nat 10.
Definition DQUOTE : ascii := ascii_of_nat 34.
Definition SLASH : ascii := ascii_of_nat 47.

(** [s.startswith(p)], returning the rest of [s] after [p]. *)
Fixpoint strip_prefix (p s : string) : option string :=
  match p, s with
  | EmptyString, _ => Some s
  | String a p', String b s' =>
      if Ascii.eqb a b then strip_prefix p' s' else None
  | String _ _, EmptyString => None
  end.

Definition startswith (s p : string) : bool :=
  match strip_prefix p s with Some _ => true | None => false end.

(** [s.endswith(c)] for a single character. *)
Fixpoint endswith_char (s : string) (c : ascii) : bool :=
  match s with
  | EmptyString => false
  | String a EmptyString => Ascii.eqb a c
  | String _ s' => endswith_char s' c
  end.

(** [s.lstrip('/')]. *)
Fixpoint lstrip_slash (s : string) : string :=
  match s with
  | String a s' => if Ascii.eqb a SLASH then lstrip_slash s' else s
  | EmptyString => EmptyString
  end.

(** [str.lower()] on ASCII letters. *)
Definition lower_char (c : ascii) : ascii :=
  let n := nat_of_ascii c in
  if ((65 <=? n) && (n <=? 90))%nat then ascii_of_nat (n + 32) else c.

Fixpoint lower (s : string) : string :=
  match s with
  | EmptyString => EmptyString
  | String c s' => String (lower_char c) (lower s')
  end.

(** [posixpath.join(a, b)]: an absolute [b] replaces [a]; otherwise the
    two are joined with exactly one separator between them. *)
Definition path_join (a b : string) : string :=
  if startswith b "/" then b
  else if bool_decide (a = "") || endswith_char a SLASH then a +:+ b
  else a +:+ "/" +:+ b.

(** [os.path.join(a, b, c, ...)]. *)
Definition path_join_all (a : string) (ps : list string) : string :=
  foldl path_join a ps.

(** *** Regular expressions used by the execute step *)

(** The dot matches every character but the line feed, and a starred
    dot is greedy: a group of it is the rest of the line. *)
Fixpoint rest_of_line (s : string) : string :=
  match s with
  | EmptyString => EmptyString
  | String c s' => if Ascii.eqb c LF then EmptyString
                   else String c (rest_of_line s')
  end.

(** [\w], on ASCII: letters, digits and the underscore. *)
Definition is_word (c : ascii) : bool :=
  let n := nat_of_ascii c in
  (((48 <=? n) && (n <=? 57)) || ((65 <=? n) && (n <=? 90))
   || ((97 <=? n) && (n <=? 122)) || (n =? 95))%nat.

(** A greedy group of one or more [\w]: the longest run of word
    characters at the front of [s] (empty when the group fails). *)
Fixpoint word_run (s : string) : string :=
  match s with
  | EmptyString => EmptyString
  | String c s' => if is_word c then String c (word_run s') else EmptyString
  end.

(** [re.search]: the match at the leftmost position where the pattern,
    given as a matcher anchored at the front, succeeds. *)
Fixpoint re_search {A} (at_front : string -> option A) (s : string)
  : option A :=
  match at_front s with
  | Some g => Some g
  | None => match s with
            | EmptyString => None
            | String _ s' => re_search at_front s'
            end
  end.

(** The pattern of the result string: the literal
    [TESTRESULT_RESULT_STRING=] and a group of a starred dot; group 1. *)
Definition result_string_at (s : string) : option string :=
  rest_of_line <$> strip_prefix "TESTRESULT_RESULT_STRING=" s.

(** The pattern of the state: the literal [TESTRESULT_STATE=], an
    optional double quote, a group of one or more [\w], an optional
    double quote; group 1.  The opening quote is taken when present:
    without it the group would have to start at the quote, which is no
    word character.  The closing quote is optional and cannot fail. *)
Definition state_at (s : string) : option string :=
  rest ← strip_prefix "TESTRESULT_STATE=" s;
  let body := match rest with
              | String c r => if Ascii.eqb c DQUOTE then r else rest
              | EmptyString => rest
              end in
  let w := word_run body in
  if bool_decide (w = "") then None else Some w.

(** The pattern of the old methods: [shell] or [beakerlib] as group 1,
    an optional [.tmt], anchored at both ends.  Without [re.MULTILINE]
    the dollar matches at the end and before a line feed that ends the
    string. *)
Fixpoint strip_final_LF (s : string) : string :=
  match s with
  | EmptyString => EmptyString
  | String c EmptyString => if Ascii.eqb c LF then EmptyString else s
  | String c s' => String c (strip_final_LF s')
  end.

Definition old_method (how : string) : option string :=
  let h := strip_final_LF how in
  if bool_decide (h = "shell") || bool_decide (h = "shell.tmt")
  then Some "shell"
  else if bool_decide (h = "beakerlib") || bool_decide (h = "beakerlib.tmt")
  then Some "beakerlib"
  else None.

(** [fmf.utils.listed(items, singular)] in its description mode, which
    a singular without a maximum selects: the count and the noun. *)
Definition plural_of (singular : string) : string :=
  if endswith_char singular (ascii_of_nat 121)
  then String.substring 0 (String.length singular - 1) singular +:+ "ies"
  else singular +:+ "s".

Definition listed {A} (items : list A) (singular : string) : string :=
  match length items with
  | 1%nat => "1 " +:+ singular
  | n => pretty n +:+ " " +:+ plural_of singular
  end.

(** *** Insertion-ordered dictionaries

    A Python [dict] keeps its keys in the order of their first
    insertion; assigning to a key that is present replaces the value
    where the key already stands. *)
Fixpoint setitem {V} (k : string) (v : V) (d : list (string * V))
  : list (string * V) :=
  match d with
  | [] => [(k, v)]
  | (k', v') :: d' =>
      if bool_decide (k' = k) then (k, v) :: d'
      else (k', v') :: setitem k v d'
  end.

(** [dict(pairs)]. *)
Definition dict_of {V} (pairs : list (string * V)) : list (string * V) :=
  foldl (fun d kv => setitem kv.1 kv.2 d) [] pairs.

End Py.

(** ** Values, results and tests *)

(** A value of a YAML-like record: a string or a list of strings. *)
Inductive Value :=
| VStr (s : string)
| VList (l : list string).

Global Instance Value_eq_dec : EqDecision Value.
Proof. solve_decision. Defined.

(** A Python dictionary with string keys whose order is never observed. *)
Abbreviation Dict := (gmap string Value).

(** Modelled from the spec: [tmt.Result], absent from src/.  The spec
    describes a value object made of the test name and the record
    [{result, log, duration, note?}], created from such a record and
    serialized back to it; its attributes are read from the record.  The
    spec gives the third constructor argument, which [check_shell] and
    [check_beakerlib] pass, no effect. *)
Record Result := { res_name : string; res_data : Dict }.

(** Modelled from the spec: the constructor [tmt.Result(data, name,
    interpret)], absent from src/, keeps the name and the record. *)
Definition Result_init (data : Dict) (name : string)
  (interpret : option string) : Result :=
  {| res_name := name; res_data := data |}.

(** Modelled from the spec: [Result.export], absent from src/, gives the
    record that the results store holds for the test. *)
Definition export (r : Result) : Dict := res_data r.

(** The attributes of a result, read from its record. *)
Definition outcome (r : Result) : option Value := res_data r !! "result".
Definition note (r : Result) : option Value := res_data r !! "note".
Definition log (r : Result) : option Value := res_data r !! "log".
Definition res_duration (r : Result) : option Value :=
  res_data r !! "duration".

(** Modelled from the spec: [tmt.Test], absent from src/; the attributes
    the spec lists for a discovered test. *)
Record Test := {
  name : string;
  duration : string;
  returncode : Z;
  real_duration : string;
  result : string
}.

(** Modelled from the spec: [tmt.utils.PROCESS_TIMEOUT], absent from
    src/; the spec names exit code 124 as the timeout sentinel. *)
Definition PROCESS_TIMEOUT : Z := 124.

Definition TEST_DATA : string := "data".
Definition DEFAULT_FRAMEWORK : string := "shell".
Definition TEST_OUTPUT_FILENAME : string := "output.txt".

(** ** Exceptions, output and the monad of methods *)

Inductive exn :=
| FileError
| SpecificationError (msg : string)
| ExecuteError (msg : string)
| GeneralError (msg : string)
| IndexError
| KeyError
| AssertionError.

(** What [self.info], [self.debug] and [self.warn] print. *)
Inductive Msg :=
| Info (key value color : string) (shift : nat)
| Debug (text : string) (level : nat)
| Warn (text : string).

(** A method: from a state to a value or a raised exception, and the
    state it leaves behind in either case. *)
Definition M (S A : Type) : Type := S -> (exn + A) * S.

Global Instance M_ret {S} : MRet (M S) := fun A x s => (inr x, s).
Global Instance M_bind {S} : MBind (M S) := fun A B f m s =>
  match m s with
  | (inl e, s') => (inl e, s')
  | (inr a, s') => f a s'
  end.

Definition raise {S A} (e : exn) : M S A := fun s => (inl e, s).
Definition get {S} : M S S := fun s => (inr s, s).
Definition modify {S} (f : S -> S) : M S unit := fun s => (inr tt, f s).

(** [try: m except E: h], for the exceptions [E] on which [h] is
    defined. *)
Definition try_except {S A} (m : M S A) (h : exn -> option (M S A))
  : M S A := fun s =>
  match m s with
  | (inl e, s') => match h e with
                   | Some k => k s'
                   | None => (inl e, s')
                   end
  | (inr a, s') => (inr a, s')
  end.

(** A method of a part of the state, run on the whole. *)
Definition zoom {S T A} (proj : S -> T) (inj : T -> S -> S) (m : M T A)
  : M S A := fun s =>
  let '(r, t) := m (proj s) in (r, inj t s).

(** [for x in xs: body(x)]. *)
Fixpoint for_each {S A} (xs : list A) (body : A -> M S unit) : M S unit :=
  match xs with
  | [] => mret tt
  | x :: xs' => body x ;; for_each xs' body
  end.

Definition returns {S A} (m : M S A) (s : S) (a : A) (s' : S) : Prop :=
  m s = (inr a, s').
Definition raises {S A} (m : M S A) (s : S) (e : exn) (s' : S) : Prop :=
  m s = (inl e, s').

(** ** The object graph of a plan *)

Definition Guest : Type := string.

(** The classes a phase of a step can belong to. *)
Inductive PhaseClass := ExecutePluginClass | ReportPluginClass | ActionClass.

Global Instance PhaseClass_eq_dec : EqDecision PhaseClass.
Proof. solve_decision. Defined.

Section Model.

(** The state of the collaborators that src/ does not contain: the
    guests and what the concrete plugins keep between calls. *)
Context {Ext : Type}.

(** What exists outside the step objects: the files below the working
    directories, the messages printed so far and the collaborators. *)
Record World := {
  files : gmap string string;
  out : list Msg;
  ext : Ext
}.

Definition set_files (f : gmap string string -> gmap string string)
  (w : World) : World :=
  {| files := f (files w); out := out w; ext := ext w |}.
Definition emit (m : Msg) (w : World) : World :=
  {| files := files w; out := out w ++ [m]; ext := ext w |}.

(** A phase: a plugin instance bound to a step.  Its methods are those
    of the concrete plugin classes, which src/ does not contain; they
    act on the world, never on the fields of the step. *)
Record Phase := {
  ph_class : PhaseClass;
  ph_wake : World -> World;
  ph_go : option Guest -> M World unit;
  ph_enabled_on_guest : Guest -> bool;
  ph_results : World -> list Result;
  ph_requires : World -> list string
}.

(** The fields of [tmt.steps.Step] that the two steps use. *)
Record StepCore := {
  workdir : string;
  _status : option string;
  data : list Dict;
  _phases : list Phase
}.

Definition set_status (v : option string) (c : StepCore) : StepCore :=
  {| workdir := workdir c; _status := v; data := data c;
     _phases := _phases c |}.
Definition set_data (d : list Dict) (c : StepCore) : StepCore :=
  {| workdir := workdir c; _status := _status c; data := d;
     _phases := _phases c |}.
Definition set_phases (ps : list Phase) (c : StepCore) : StepCore :=
  {| workdir := workdir c; _status := _status c; data := data c;
     _phases := ps |}.

Record Execute := {
  step : StepCore;
  _results : list Result;
  scripts : list string;
  _framework : string
}.

Definition set_step (f : StepCore -> StepCore) (e : Execute) : Execute :=
  {| step := f (step e); _results := _results e; scripts := scripts e;
     _framework := _framework e |}.
Definition set_results (rs : list Result) (e : Execute) : Execute :=
  {| step := step e; _results := rs; scripts := scripts e;
     _framework := _framework e |}.
Definition set_framework (fw : string) (e : Execute) : Execute :=
  {| step := step e; _results := _results e; scripts := scripts e;
     _framework := fw |}.

Record Report := { rstep : StepCore }.

(** A call of a collaborator made by a step. *)
Inductive Call :=
| CallDelegate (d : Dict)
| CallPhaseWake (p : Phase)
| CallPhaseGo (p : Phase) (g : option Guest).

(** The plan with its steps.  [calls] records the collaborator calls in
    the order the steps make them; no collaborator can reach it. *)
Record Plan := {
  plan_name : string;
  my_run : bool;
  guests : list Guest;
  execute : Execute;
  report : Report;
  world : World;
  calls : list Call
}.

Definition set_execute (f : Execute -> Execute) (p : Plan) : Plan :=
  {| plan_name := plan_name p; my_run := my_run p; guests := guests p;
     execute := f (execute p); report := report p; world := world p;
     calls := calls p |}.
Definition set_report (f : Report -> Report) (p : Plan) : Plan :=
  {| plan_name := plan_name p; my_run := my_run p; guests := guests p;
     execute := execute p; report := f (report p); world := world p;
     calls := calls p |}.
Definition set_world (w : World) (p : Plan) : Plan :=
  {| plan_name := plan_name p; my_run := my_run p; guests := guests p;
     execute := execute p; report := report p; world := w;
     calls := calls p |}.
Definition record_call (c : Call) (p : Plan) : Plan :=
  {| plan_name := plan_name p; my_run := my_run p; guests := guests p;
     execute := execute p; report := report p; world := world p;
     calls := calls p ++ [c] |}.

(** A method of a collaborator, run by a step. *)
Definition in_world {A} (m : M World A) : M Plan A :=
  zoom world set_world m.

(** ** The collaborators

    The code of this repository that the two steps call and that src/
    does not contain, with the one library function of Python that is
    not modelled here.  The inherited methods of [tmt.steps.Step] see the
    fields of the base class and the world, and return: the
    specification names no error of theirs.  The inherited [wake] may
    call what the execute step overrides, so it sees the whole step. *)
Class Collaborators := {
  (** [os.path.relpath(path, start)] *)
  relpath : string -> string -> string;
  (** [tmt.utils.dict_to_yaml] and [tmt.utils.yaml_to_dict] *)
  dict_to_yaml : list (string * Dict) -> string;
  yaml_to_dict : string -> exn + list (string * Dict);
  (** [tmt.base.Result.summary] *)
  Result_summary : list Result -> string;
  (** [Step.go], [Step.actions], [Step.load], [Step.save] *)
  Step_go : StepCore -> World -> World;
  Step_actions : StepCore -> World -> World;
  Step_load : list string -> StepCore -> World -> StepCore * World;
  Step_save : Dict -> StepCore -> World -> World;
  (** [Step.wake], as the execute step inherits it *)
  Step_wake : Execute -> World -> Execute * World;
  (** [ExecutePlugin.delegate] *)
  delegate : StepCore -> Dict -> exn + Phase
}.

Context `{!Collaborators}.

(** What the specification says of the inherited methods where a
    property needs it: running a step that is done writes nothing, and
    loading only reads. *)
Definition go_keeps_files : Prop :=
  forall c w, files (Step_go c w) = files w.
Definition actions_keep_files : Prop :=
  forall c w, files (Step_actions c w) = files w.
Definition load_only_reads : Prop :=
  forall keys c w,
    files (Step_load keys c w).2 = files w /\
    workdir (Step_load keys c w).1 = workdir c.

(** *** Methods of [tmt.utils.Common] and [tmt.steps.Step] *)

(** Modelled from the spec: [Common.read], absent from src/.  The path
    is taken below the working directory; a file that cannot be read
    raises the file error. *)
Definition read (wd path : string) : M World string := fun w =>
  match files w !! Py.path_join wd path with
  | Some content => (inr content, w)
  | None => (inl FileError, w)
  end.

Inductive Mode := ModeW | ModeA.

(** Modelled from the spec: [Common.write], absent from src/.  Mode [a]
    appends to what the file holds, as the spec says of the hint. *)
Definition write (wd path content : string) (mode : Mode) : M World unit :=
  modify (set_files (fun fs =>
    let p := Py.path_join wd path in
    match mode with
    | ModeW => <[p := content]> fs
    | ModeA => <[p := default "" (fs !! p) +:+ content]> fs
    end)).

(** [os.path.isfile]. *)
Definition isfile (path : string) (w : World) : bool :=
  bool_decide (is_Some (files w !! path)).

(** Modelled from the spec: [Common.info], absent from src/, prints a
    message. *)
Definition info (key value color : string) (shift : nat) : M World unit :=
  modify (emit (Info key value color shift)).

(** Modelled from the spec: [Common.debug], absent from src/, prints a
    message. *)
Definition debug (text : string) (level : nat) : M World unit :=
  modify (emit (Debug text level)).

(** Modelled from the spec: [Common.warn], absent from src/, prints a
    message. *)
Definition warn (text : string) : M World unit :=
  modify (emit (Warn text)).

(** Modelled from the spec: [Step.__init__], absent from src/.  A new
    step has its configuration records, no status and no phases. *)
Definition Step_init (wd : string) (d : list Dict) : StepCore :=
  {| workdir := wd; _status := None; data := d; _phases := [] |}.

(** Modelled from the spec: [Step.status], absent from src/, reads the
    status and, given one, sets it ([set_status]). *)
Definition status (c : StepCore) : option string := _status c.

(** [self.status() == 'done']. *)
Definition is_done (c : StepCore) : bool :=
  bool_decide (status c = Some "done").

(** Modelled from the spec: [Step.phases], absent from src/: the
    ordered phases of the step, of the given class when one is given. *)
Definition phases (classes : option PhaseClass) (c : StepCore)
  : list Phase :=
  match classes with
  | None => _phases c
  | Some k => filter (fun ph => ph_class ph = k) (_phases c)
  end.

(** ** [ExecutePlugin] *)

Definition NL : string := String Py.LF "".

(** [data_path(test, filename, full)].  Directories are no files of the
    world, so creating the directory, which [create] requests, leaves
    the world as it is. *)
Definition data_path (wd : string) (test : Test) (filename : option string)
  (full : bool) : string :=
  let directory :=
    Py.path_join_all wd [TEST_DATA; Py.lstrip_slash (name test)] in
  match filename with
  | None | Some EmptyString => directory
  | Some f =>
      let path := Py.path_join directory f in
      if full then path else relpath path wd
  end.

(** The text that [timeout_hint] formats. *)
Definition hint_text (test : Test) : string :=
  NL +:+ "Maximum test time '" +:+ duration test +:+ "' exceeded." +:+ NL
  +:+ "Adjust the test 'duration' attribute if necessary." +:+ NL
  +:+ "https://tmt.readthedocs.io/en/stable/spec/tests.html#duration"
  +:+ NL.

Definition timeout_hint (wd : string) (test : Test) : M World unit :=
  let output := data_path wd test (Some TEST_OUTPUT_FILENAME) true in
  write wd output (hint_text test) ModeA.

(** The table [{0: 'pass', 1: 'fail'}]. *)
Definition shell_results : gmap Z string := {[ 0 := "pass"; 1 := "fail" ]}.

Definition check_shell (wd : string) (test : Test) : M World Result :=
  let data : Dict :=
    {[ "log" := VStr (data_path wd test (Some TEST_OUTPUT_FILENAME) false);
       "duration" := VStr (real_duration test) ]} in
  match shell_results !! returncode test with
  | Some r =>
      let data := <["result" := VStr r]> data in
      mret (Result_init data (name test) (Some (result test)))
  | None =>
      let data := <["result" := VStr "error"]> data in
      if bool_decide (returncode test = PROCESS_TIMEOUT) then
        let data := <["note" := VStr "timeout"]> data in
        timeout_hint wd test ;;
        mret (Result_init data (name test) (Some (result test)))
      else mret (Result_init data (name test) (Some (result test)))
  end.

Definition check_beakerlib (wd : string) (test : Test) : M World Result :=
  w ← get;
  let logs :=
    filter (fun l => isfile (data_path wd test (Some l) true) w)
      [TEST_OUTPUT_FILENAME; "journal.txt"] in
  let data : Dict :=
    {[ "result" := VStr "error";
       "log" := VList ((fun l => data_path wd test (Some l) false) <$> logs);
       "duration" := VStr (real_duration test) ]} in
  let beakerlib_results_file := data_path wd test (Some "TestResults") true in
  let finish (data : Dict) :=
    Result_init data (name test) (Some (result test)) in
  (* try: results = self.read(...) except FileError: ... return *)
  read_or_return ← try_except
    (results ← read wd beakerlib_results_file; mret (inr results))
    (fun e => match e with
       | FileError => Some (
           debug ("Unable to read '" +:+ beakerlib_results_file +:+ "'.") 3 ;;
           mret (inl (finish
             (<["note" := VStr "beakerlib: TestResults FileError"]> data))))
       | _ => None
       end);
  match read_or_return with
  | inl returned => mret returned
  | inr results =>
      (* try: the two searches; except AttributeError: ... return *)
      match Py.re_search Py.result_string_at results,
            Py.re_search Py.state_at results with
      | Some result, Some state =>
          if bool_decide (returncode test = PROCESS_TIMEOUT) then
            let data := <["result" := VStr "error"]> data in
            let data := <["note" := VStr "timeout"]> data in
            timeout_hint wd test ;;
            mret (finish data)
          else if bool_decide (state <> "complete") then
            let data := <["result" := VStr "error"]> data in
            let data :=
              <["note" := VStr ("beakerlib: State '" +:+ state +:+ "'")]>
                data in
            mret (finish data)
          else
            mret (finish (<["result" := VStr (Py.lower result)]> data))
      | _, _ =>
          debug ("No result or state found in '" +:+ beakerlib_results_file
                 +:+ "'.") 3 ;;
          mret (finish
            (<["note" := VStr "beakerlib: Result/State missing"]> data))
      end
  end.

(** ** [Execute] *)

Definition Execute_results (e : Execute) : list Result := _results e.

Definition raise_or_return {S A} (r : exn + A) : M S A :=
  match r with
  | inl e => raise e
  | inr a => mret a
  end.

Definition Execute_load (extra_keys : list string) : M Plan unit :=
  p ← get;
  (* super().load(extra_keys) *)
  let loaded := Step_load extra_keys (step (execute p)) (world p) in
  modify (set_execute (set_step (fun _ => loaded.1))) ;;
  modify (set_world loaded.2) ;;
  try_except
    (content ← in_world (read (workdir loaded.1) "results.yaml");
     results ← raise_or_return (yaml_to_dict content);
     modify (set_execute (set_results
       ((fun '(test, data) => Result_init data test None) <$> results))))
    (fun e => match e with
       | FileError => Some (in_world (debug "Test results not found." 2))
       | _ => None
       end).

Definition Execute_save (d : Dict) : M Plan unit :=
  p ← get;
  (* super().save(data) *)
  in_world (modify (Step_save d (step (execute p)))) ;;
  let results :=
    Py.dict_of ((fun r => (res_name r, export r))
                  <$> Execute_results (execute p)) in
  in_world (write (workdir (step (execute p))) "results.yaml"
              (dict_to_yaml results) ModeW).

Definition Execute_map_old_methods : M Plan unit :=
  p ← get;
  match data (step (execute p)) with
  | [] => raise IndexError
  | d0 :: ds =>
      match d0 !! "how" with
      | None => raise KeyError
      | Some (VList _) => raise AssertionError
      | Some (VStr how) =>
          match Py.old_method how with
          | None => mret tt
          | Some framework =>
              in_world (warn ("The '" +:+ how
                              +:+ "' execute method has been deprecated.")) ;;
              let how := "tmt" in
              in_world (warn ("Use 'how: " +:+ how
                              +:+ "' in the execute step instead (L2).")) ;;
              modify (set_execute (set_step
                (set_data (<["how" := VStr how]> d0 :: ds)))) ;;
              in_world (warn ("Set 'framework: " +:+ framework
                              +:+ "' in test metadata (L1).")) ;;
              modify (set_execute (set_framework framework)) ;;
              in_world
                (warn "Support for old methods will be dropped in tmt-2.0.")
          end
      end
  end.

Definition Execute_init (wd : string) (d : list Dict) : M Plan unit :=
  modify (set_execute (fun _ =>
    {| step := Step_init wd d; _results := []; scripts := [];
       _framework := DEFAULT_FRAMEWORK |})) ;;
  p ← get;
  if negb (my_run p) then Execute_map_old_methods else mret tt.

Definition Execute_wake : M Plan unit :=
  (* super().wake() *)
  modify (fun p =>
    let woken := Step_wake (execute p) (world p) in
    set_world woken.2 (set_execute (fun _ => woken.1) p)) ;;
  p ← get;
  if bool_decide (1 < length (data (step (execute p))))%nat then
    raise (SpecificationError
      ("Multiple execute steps defined in '" +:+ plan_name p +:+ "'."))
  else
    Execute_map_old_methods ;;
    p ← get;
    d0 ← match data (step (execute p)) with
         | [] => raise IndexError
         | d0 :: _ => mret d0
         end;
    modify (record_call (CallDelegate d0)) ;;
    executor ← raise_or_return (delegate (step (execute p)) d0);
    modify (record_call (CallPhaseWake executor)) ;;
    in_world (modify (ph_wake executor)) ;;
    modify (set_execute (set_step
      (fun c => set_phases (_phases c ++ [executor]) c))) ;;
    p ← get;
    if is_done (step (execute p)) then
      in_world
        (debug "Execute wake up complete (already done before)." 2)
    else
      modify (set_execute (set_step (set_status (Some "todo")))) ;;
      Execute_save ∅.

Definition Execute_summary : M Plan unit :=
  p ← get;
  let tests := Py.listed (Execute_results (execute p)) "test" in
  in_world (info "summary" (tests +:+ " executed") "green" 1).

(** The body of the inner loop of [go]: one phase on one guest. *)
Definition Execute_go_phase (guest : Guest) (phase : Phase) : M Plan unit :=
  if ph_enabled_on_guest phase guest then
    modify (record_call (CallPhaseGo phase (Some guest))) ;;
    in_world (ph_go phase (Some guest)) ;;
    if bool_decide (ph_class phase = ExecutePluginClass) then
      p ← get;
      modify (set_execute (fun e =>
        set_results (_results e ++ ph_results phase (world p)) e))
    else mret tt
  else mret tt.

(** The body of the outer loop of [go]: the phases on one guest. *)
Definition Execute_go_guest (guest : Guest) : M Plan unit :=
  p ← get;
  for_each (phases None (step (execute p))) (Execute_go_phase guest).

Definition Execute_go : M Plan unit :=
  p ← get;
  (* super().go() *)
  in_world (modify (Step_go (step (execute p)))) ;;
  if is_done (step (execute p)) then
    in_world (info "status" "done" "green" 1) ;;
    Execute_summary ;;
    in_world (modify (Step_actions (step (execute p))))
  else if bool_decide (guests p = []) then
    raise (ExecuteError "No guests available for execution.")
  else
    for_each (guests p) Execute_go_guest ;;
    Execute_summary ;;
    modify (set_execute (set_step (set_status (Some "done")))) ;;
    Execute_save ∅.

(** [set()] with [update] for every plugin, then [list(...)]: the order
    of the elements of a set is not specified. *)
Definition requires_of (ps : list Phase) (w : World) : list string :=
  elements (foldl (fun (requires : gset string) plugin =>
                     requires ∪ list_to_set (ph_requires plugin w)) ∅ ps).

Definition Execute_requires (p : Plan) : list string :=
  requires_of (phases (Some ExecutePluginClass) (step (execute p)))
    (world p).

(** ** [Report] *)

Definition Report_summary : M Plan unit :=
  p ← get;
  let summary := Result_summary (Execute_results (execute p)) in
  in_world (info "summary" summary "green" 1).

Definition Report_go : M Plan unit :=
  p ← get;
  (* super().go() *)
  in_world (modify (Step_go (rstep (report p)))) ;;
  if is_done (rstep (report p)) then
    in_world (info "status" "done" "green" 1) ;;
    Report_summary ;;
    in_world (modify (Step_actions (rstep (report p))))
  else
    for_each (phases None (rstep (report p))) (fun phase =>
      modify (record_call (CallPhaseGo phase None)) ;;
      in_world (ph_go phase None)) ;;
    Report_summary ;;
    modify (set_report (fun r =>
      {| rstep := set_status (Some "done") (rstep r) |})) ;;
    (* self.save(), which the report step inherits *)
    p ← get;
    in_world (modify (Step_save ∅ (rstep (report p)))).

Definition Report_requires (p : Plan) : list string :=
  requires_of (phases (Some ReportPluginClass) (rstep (report p)))
    (world p).

(** ** Vocabulary of the properties *)

(** The file that [write] reaches for the output log of a test. *)
Definition output_log (wd : string) (test : Test) : string :=
  Py.path_join wd (data_path wd test (Some TEST_OUTPUT_FILENAME) true).

(** The world after the hint has been appended to the output log. *)
Definition with_hint (wd : string) (test : Test) (w : World) : World :=
  set_files (fun fs =>
    <[output_log wd test :=
        default "" (fs !! output_log wd test) +:+ hint_text test]> fs) w.


(** The lines that a step which is done prints, and what running it
    does to the world: the inherited [go], the two lines, the inherited
    [actions]. *)
Definition status_line : Msg := Info "status" "done" "green" 1.
Definition Execute_summary_line (e : Execute) : Msg :=
  Info "summary" (Py.listed (Execute_results e) "test" +:+ " executed")
    "green" 1.
Definition Report_summary_line (e : Execute) : Msg :=
  Info "summary" (Result_summary (Execute_results e)) "green" 1.
Definition done_pass (c : StepCore) (summary : Msg) (w : World) : World :=
  Step_actions c (emit summary (emit status_line (Step_go c w))).

(** The dictionary that [save] serializes. *)
Definition results_store (e : Execute) : list (string * Dict) :=
  Py.dict_of ((fun r => (res_name r, export r)) <$> Execute_results e).

(** The file of the results below the working directory of a step. *)
Definition results_yaml (c : StepCore) : string :=
  Py.path_join (workdir c) "results.yaml".

(** The pairs of a guest and a phase on which [go] runs the phase: the
    guests in order and, for each, the phases enabled on it in order. *)
Definition invocations (gs : list Guest) (ps : list Phase)
  : list (Guest * Phase) :=
  g ← gs;
  (fun ph => (g, ph)) <$> filter (fun ph => ph_enabled_on_guest ph g) ps.

(** One invocation: the world that [phase.go(guest)] leaves and the
    results that the step takes from the phase afterwards. *)
Definition invoke (gp : Guest * Phase) (w : World) : World * list Result :=
  let w' := (ph_go gp.2 (Some gp.1) w).2 in
  (w', if bool_decide (ph_class gp.2 = ExecutePluginClass)
       then ph_results gp.2 w' else []).

(** The results of each of a sequence of invocations, one run after the
    other from the world [w], and the world in the end. *)
Fixpoint gathered (gps : list (Guest * Phase)) (w : World)
  : list (list Result) * World :=
  match gps with
  | [] => ([], w)
  | gp :: gps' =>
      let here := invoke gp w in
      let later := gathered gps' here.1 in
      (here.2 :: later.1, later.2)
  end.

(** Every phase of the step returns from [go] without an exception. *)
Definition phases_return (c : StepCore) : Prop :=
  forall ph g w, ph ∈ _phases c -> (ph_go ph g w).1 = inr tt.

(** The plan after one invocation that returns. *)
Definition run_phase (p : Plan) (gp : Guest * Phase) : Plan :=
  let p1 := record_call (CallPhaseGo gp.2 (Some gp.1)) p in
  let p2 := set_world (ph_go gp.2 (Some gp.1) (world p1)).2 p1 in
  if bool_decide (ph_class gp.2 = ExecutePluginClass) then
    set_execute (fun e =>
      set_results (_results e ++ ph_results gp.2 (world p2)) e) p2
  else p2.

(** The step and the world as the inherited [wake] leaves them. *)
Definition woken (p : Plan) : Execute * World :=
  Step_wake (execute p) (world p).

(** Normalization of the old methods, on the first configuration record
    and the default framework: an old method becomes [tmt] and its
    first part the framework; every other record is left as it is. *)
Definition normalized (d0 : Dict) (framework : string) : Dict * string :=
  match d0 !! "how" with
  | Some (VStr how) =>
      match Py.old_method how with
      | Some old => (<["how" := VStr "tmt"]> d0, old)
      | None => (d0, framework)
      end
  | _ => (d0, framework)
  end.



End Model.

Arguments World : clear implicits.
Arguments Phase : clear implicits.
Arguments StepCore : clear implicits.
Arguments Execute : clear implicits.
Arguments Report : clear implicits.
Arguments Call : clear implicits.
Arguments Plan : clear implicits.
Arguments Collaborators : clear implicits.

(** * Reference collaborators

    A small instance of the collaborators, on which the model runs: a
    base class that prints, saves the status and loads nothing, one
    execute plugin and a line format for the records of the results. *)

Module Reference.

(** The state of the plugins: the results of the last [go]. *)
Definition State : Type := list Result.

Definition relpath (path start : string) : string :=
  match Py.strip_prefix (start +:+ "/") path with
  | Some rest => rest
  | None => path
  end.

(** *** A line format for the results *)

Definition field_lines (kv : string * Value) : string :=
  match kv.2 with
  | VStr v => "  " +:+ kv.1 +:+ ": " +:+ v +:+ NL
  | VList l =>
      "  " +:+ kv.1 +:+ ":" +:+ NL
      +:+ String.concat "" ((fun i => "    - " +:+ i +:+ NL) <$> l)
  end.

Definition entry_lines (entry : string * Dict) : string :=
  "- " +:+ entry.1 +:+ NL
  +:+ String.concat "" (field_lines <$> map_to_list entry.2).

Definition dict_to_yaml (d : list (string * Dict)) : string :=
  String.concat "" (entry_lines <$> d).

Fixpoint split_lines (s : string) : list string :=
  match s with
  | EmptyString => [EmptyString]
  | String c s' =>
      if Ascii.eqb c Py.LF then EmptyString :: split_lines s'
      else match split_lines s' with
           | l :: ls => String c l :: ls
           | [] => [String c EmptyString]
           end
  end.

(** The key before the first colon and the text after it. *)
Fixpoint split_colon (s : string) : option (string * string) :=
  match s with
  | EmptyString => None
  | String c s' =>
      if Ascii.eqb c (ascii_of_nat 58) then Some (EmptyString, s')
      else '(k, v) ← split_colon s'; Some (String c k, v)
  end.

(** The entries read so far, the last one first, and the key of the
    list that is being read. *)
Definition parse_line (st : option (list (string * Dict) * string))
  (line : string) : option (list (string * Dict) * string) :=
  '(entries, key) ← st;
  if bool_decide (line = "") then Some (entries, key)
  else match Py.strip_prefix "- " line with
  | Some name => Some ((name, ∅) :: entries, "")
  | None =>
    match entries with
    | [] => None
    | (name, fields) :: done =>
      match Py.strip_prefix "    - " line with
      | Some item =>
          match fields !! key with
          | Some (VList l) =>
              Some ((name, <[key := VList (l ++ [item])]> fields) :: done, key)
          | _ => None
          end
      | None =>
          body ← Py.strip_prefix "  " line;
          '(k, v) ← split_colon body;
          match Py.strip_prefix " " v with
          | Some text => Some ((name, <[k := VStr text]> fields) :: done, "")
          | None =>
              if bool_decide (v = "")
              then Some ((name, <[k := VList []]> fields) :: done, k)
              else None
          end
      end
    end
  end.

Definition yaml_to_dict (text : string) : exn + list (string * Dict) :=
  match foldl parse_line (Some ([], "")) (split_lines text) with
  | Some (entries, _) => inr (reverse entries)
  | None => inl (GeneralError "Invalid yaml.")
  end.

(** *** The base class and the plugin *)

Definition Result_summary (rs : list Result) : string :=
  Py.listed (filter (fun r => outcome r = Some (VStr "pass")) rs) "test"
  +:+ " passed".

Definition Step_go (c : StepCore State) (w : World State) : World State :=
  emit (Debug ("workdir " +:+ workdir c) 1) w.

Definition Step_actions (c : StepCore State) (w : World State)
  : World State := w.

Definition Step_load (keys : list string) (c : StepCore State)
  (w : World State) : StepCore State * World State := (c, w).

Definition Step_save (d : Dict) (c : StepCore State) (w : World State)
  : World State :=
  set_files (<[Py.path_join (workdir c) "step.yaml" :=
                 "status: " +:+ default "" (status c)]>) w.

Definition Step_wake (e : Execute State) (w : World State)
  : Execute State * World State := (e, w).

(** A plugin that reports one passed test on each guest. *)
Definition executor : Phase State := {|
  ph_class := ExecutePluginClass;
  ph_wake := fun w => w;
  ph_go := fun guest => modify (fun w =>
    {| files := files w; out := out w;
       ext := [Result_init {[ "result" := VStr "pass" ]}
                 ("/test/on/" +:+ default "" guest) None] |});
  ph_enabled_on_guest := fun _ => true;
  ph_results := ext;
  ph_requires := fun _ => ["beakerlib"]
|}.

Definition delegate (c : StepCore State) (d : Dict) : exn + Phase State :=
  match d !! "how" with
  | Some (VStr "tmt") => inr executor
  | _ => inl (SpecificationError "Unsupported execute method.")
  end.

Definition collaborators : Collaborators State :=
  @Build_Collaborators State relpath dict_to_yaml yaml_to_dict Result_summary
    Step_go Step_actions Step_load Step_save Step_wake delegate.

End Reference.

(** * Example plans *)

Module Examples.

Definition world0 : World Reference.State :=
  {| files := ∅; out := []; ext := [] |}.

Definition passed : Result :=
  Result_init
    {[ "result" := VStr "pass";
       "log" := VList ["data/a/output.txt"; "data/a/journal.txt"];
       "duration" := VStr "00:00:01" ]}
    "/a" None.

Definition timed_out : Result :=
  Result_init
    {[ "result" := VStr "error";
       "log" := VStr "data/b/output.txt";
       "duration" := VStr "00:05:00";
       "note" := VStr "timeout" ]}
    "/b" None.

(** A plan whose two steps have the given status, and whose execute
    step has the given configuration, phases and results. *)
Definition plan (run : bool) (st : option string) (d : list Dict)
  (ps : list (Phase Reference.State)) (rs : list Result) (gs : list Guest)
  : Plan Reference.State :=
  {| plan_name := "/plans/basic";
     my_run := run;
     guests := gs;
     execute :=
       {| step := {| workdir := "/run/plans/basic/execute"; _status := st;
                     data := d; _phases := ps |};
          _results := rs; scripts := [];
          _framework := DEFAULT_FRAMEWORK |};
     report :=
       {| rstep := {| workdir := "/run/plans/basic/report"; _status := st;
                      data := [{[ "how" := VStr "display" ]}];
                      _phases := [] |} |};
     world := world0;
     calls := [] |}.

Definition how (method : string) : Dict := {[ "how" := VStr method ]}.

(** Both steps done, with two results. *)
Definition done_plan : Plan Reference.State :=
  plan true (Some "done") [how "tmt"] [Reference.executor]
    [passed; timed_out] ["guest"].

(** Woken up, not run yet, without a guest and with two guests. *)
Definition stranded_plan : Plan Reference.State :=
  plan true (Some "todo") [how "tmt"] [Reference.executor] [] [].
Definition ready_plan : Plan Reference.State :=
  plan true (Some "todo") [how "tmt"] [Reference.executor] []
    ["client"; "server"].

(** Two configuration records. *)
Definition doubled_plan : Plan Reference.State :=
  plan true None [how "tmt"; how "tmt"] [] [] ["guest"].

(** A run whose execute step is done, configured with an old method. *)
Definition resumed_plan : Plan Reference.State :=
  plan true (Some "done") [how "beakerlib"] [] [] ["guest"].

(** A test that timed out and one that failed. *)
Definition slow_test : Test :=
  {| name := "/tests/slow"; duration := "5m"; returncode := 124;
     real_duration := "00:05:00"; result := "respect" |}.

End Examples.


(** * Further parts of the two steps *)

Section Further.

Context {Ext : Type} `{!Collaborators Ext}.

(** ** More of [Execute] *)

(** The warnings that [_map_old_methods] prints for an old method. *)
Definition old_method_warnings (how framework : string) : list Msg :=
  [ Warn ("The '" +:+ how +:+ "' execute method has been deprecated.");
    Warn "Use 'how: tmt' in the execute step instead (L2).";
    Warn ("Set 'framework: " +:+ framework +:+ "' in test metadata (L1).");
    Warn "Support for old methods will be dropped in tmt-2.0." ].

(** The world with more lines printed. *)
Definition emit_all (ms : list Msg) (w : World Ext) : World Ext :=
  {| files := files w; out := out w ++ ms; ext := ext w |}.

(** The plan after [_map_old_methods] has returned: for an old method
    the four warnings are printed, the method of the first record is
    [tmt] and the framework is the old method's. *)
Definition normalized_plan (q : Plan Ext) : Plan Ext :=
  match data (step (execute q)) with
  | d0 :: ds =>
      match d0 !! "how" with
      | Some (VStr how) =>
          match Py.old_method how with
          | Some framework =>
              set_world (emit_all (old_method_warnings how framework)
                           (world q))
                (set_execute
                   (fun e => set_framework framework
                      (set_step (set_data (<["how" := VStr "tmt"]> d0 :: ds))
                         e)) q)
          | None => q
          end
      | _ => q
      end
  | [] => q
  end.

(** The plan as the inherited [wake] of the execute step leaves it. *)
Definition woken_plan (p : Plan Ext) : Plan Ext :=
  set_world (woken p).2 (set_execute (fun _ => (woken p).1) p).

(** The loops of [Execute.go] as one pass over the invocations, which
    stops at the first exception: the call is recorded and the phase
    has run, its results are not taken. *)
Fixpoint run_until_raise (gps : list (Guest * Phase Ext)) (p : Plan Ext)
  : (exn + unit) * Plan Ext :=
  match gps with
  | [] => (inr tt, p)
  | gp :: gps' =>
      let p1 := record_call (CallPhaseGo gp.2 (Some gp.1)) p in
      match ph_go gp.2 (Some gp.1) (world p1) with
      | (inl e, w') => (inl e, set_world w' p1)
      | (inr _, w') => run_until_raise gps' (run_phase p gp)
      end
  end.

(** The file of the results in the world of a plan. *)
Definition results_file_of (p : Plan Ext) : option string :=
  files (world p) !! results_yaml (step (execute p)).

(** The records of a results store as results, as [load] builds them. *)
Definition results_of_store (store : list (string * Dict)) : list Result :=
  (fun '(test, data) => Result_init data test None) <$> store.

(** ** More of [Report] *)

(** [Step.wake], as the report step inherits it, and
    [ReportPlugin.delegate]: code of this repository that src/ does not
    contain. *)
Variable Report_Step_wake : Report Ext -> World Ext -> Report Ext * World Ext.
Variable ReportPlugin_delegate : StepCore Ext -> Dict -> exn + Phase Ext.

Definition set_rstep (f : StepCore Ext -> StepCore Ext) (r : Report Ext)
  : Report Ext :=
  {| rstep := f (rstep r) |}.

(** The body of the loop of [Report.wake]: one configuration record. *)
Definition Report_wake_record (d : Dict) : M (Plan Ext) unit :=
  p ← get;
  modify (record_call (CallDelegate d)) ;;
  plugin ← raise_or_return (ReportPlugin_delegate (rstep (report p)) d);
  modify (record_call (CallPhaseWake plugin)) ;;
  in_world (modify (ph_wake plugin)) ;;
  modify (set_report (set_rstep
    (fun c => set_phases (_phases c ++ [plugin]) c))).

Definition Report_wake : M (Plan Ext) unit :=
  (* super().wake() *)
  modify (fun p =>
    let woken := Report_Step_wake (report p) (world p) in
    set_world woken.2 (set_report (fun _ => woken.1) p)) ;;
  p ← get;
  for_each (data (rstep (report p))) Report_wake_record ;;
  p ← get;
  if is_done (rstep (report p)) then
    in_world (debug "Report wake up complete (already done before)." 2)
  else
    modify (set_report (set_rstep (set_status (Some "todo")))) ;;
    (* self.save(), which the report step inherits *)
    p ← get;
    in_world (modify (Step_save ∅ (rstep (report p)))).

(** The report step and the world as the inherited [wake] leaves them. *)
Definition report_woken (p : Plan Ext) : Report Ext * World Ext :=
  Report_Step_wake (report p) (world p).

(** The plan after one configuration record has been resolved to the
    plugin [plugin]. *)
Definition wake_record (p : Plan Ext) (dp : Dict * Phase Ext) : Plan Ext :=
  let p1 := record_call (CallDelegate dp.1) p in
  let p2 := record_call (CallPhaseWake dp.2) p1 in
  let p3 := set_world (ph_wake dp.2 (world p2)) p2 in
  set_report (set_rstep (fun c => set_phases (_phases c ++ [dp.2]) c)) p3.

(** The plan after a report phase has run and returned. *)
Definition run_report_phase (p : Plan Ext) (ph : Phase Ext) : Plan Ext :=
  let p1 := record_call (CallPhaseGo ph None) p in
  set_world (ph_go ph None (world p1)).2 p1.

(** The world after report phases have run one after the other. *)
Definition after_report_phases (ps : list (Phase Ext)) (w : World Ext)
  : World Ext :=
  foldl (fun w ph => (ph_go ph None w).2) w ps.

(** The world after plugins have been woken one after the other. *)
Definition after_wakes (ps : list (Phase Ext)) (w : World Ext) : World Ext :=
  foldl (fun w ph => ph_wake ph w) w ps.

(** ** More of [ExecutePlugin] *)

(** [Script], the descriptor of a script of the internal executor. *)
Record Script := {
  path : string;
  aliases : list string;
  related_variables : list string
}.

Fixpoint has_slash (s : string) : bool :=
  match s with
  | EmptyString => false
  | String c s' => Ascii.eqb c Py.SLASH || has_slash s'
  end.

(** [os.path.basename]: what follows the last slash. *)
Fixpoint basename (s : string) : string :=
  match s with
  | EmptyString => EmptyString
  | String c s' =>
      if Ascii.eqb c Py.SLASH || has_slash s' then basename s' else s
  end.

(** A call of [guest.push]. *)
Record Push := {
  push_guest : Guest;
  push_source : string;
  push_destination : string;
  push_options : list string
}.

(** [SCRIPTS_SRC_DIR], which [pkg_resources] computes. *)
Variable SCRIPTS_SRC_DIR : string.

(** [prepare_scripts(guest)], on the pushes made so far: [guest.push]
    belongs to the guest, which src/ does not contain, and is recorded
    with its arguments. *)
Definition prepare_scripts (scripts : option (list Script)) (guest : Guest)
  : M (list Push) unit :=
  match scripts with
  | None | Some [] => raise AssertionError
  | Some scripts =>
      for_each scripts (fun script =>
        let source := Py.path_join SCRIPTS_SRC_DIR (basename (path script)) in
        for_each (path script :: aliases script) (fun dest =>
          modify (fun pushes =>
            (pushes ++ [{| push_guest := guest; push_source := source;
                           push_destination := dest;
                           push_options := ["-p"; "--chmod=755"] |}])%list)))
  end.

(** The pushes of one script. *)
Definition script_pushes (guest : Guest) (script : Script) : list Push :=
  (fun dest =>
     {| push_guest := guest;
        push_source := Py.path_join SCRIPTS_SRC_DIR (basename (path script));
        push_destination := dest;
        push_options := ["-p"; "--chmod=755"] |})
  <$> (path script :: aliases script).

End Further.

Arguments Script : clear implicits.
Arguments Push : clear implicits.

(** * Parts of the export to Nitrate *)

Module NitrateExport.

(** The exceptions of [tmt/export.py]. *)
Inductive error :=
| NitrateError (msg : string)
| ConvertError (msg : string).

(** The two searches of [find_general_plan]: for active general plans
    by linked component and by name. *)
Inductive PlanQuery :=
| ByComponent (component : string)
| ByName (plan_name : string).

(** [find_general_plan(component)], on one call: [nitrate] is a library
    outside this repository, so [nitrate.TestPlan.search] is a
    parameter, which returns the plans found or raises.  The exception
    for several plans is built and not raised. *)
Definition find_general_plan {TestPlan : Type}
  (search : PlanQuery -> error + list TestPlan) (component : string)
  : error + TestPlan :=
  match search (ByComponent component) with
  | inl e => inl e
  | inr found =>
      match (match found with
             | [] => search (ByName (component +:+ " / General"))
             | _ => inr found
             end) with
      | inl e => inl e
      | inr [] =>
          inl (NitrateError
                 ("No general test plan found for '" +:+ component +:+ "'."))
      | inr (plan :: _) => inr plan
      end
  end.

(** The pattern [.git$] at the front of [s]: any character but the line
    feed, then [git], then the end or a line feed that ends the
    string. *)
Definition dot_git_at_end (s : string) : bool :=
  match s with
  | String c (String g (String i (String t rest))) =>
      negb (Ascii.eqb c Py.LF) && Ascii.eqb g "g" && Ascii.eqb i "i"
      && Ascii.eqb t "t"
      && (bool_decide (rest = "") || bool_decide (rest = NL))
  | _ => false
  end.

(** [re.sub('.git$', '', s)]: the leftmost match is removed; what
    follows it is at most a line feed, in which nothing matches. *)
Fixpoint sub_dot_git (s : string) : string :=
  if dot_git_at_end s then
    match s with
    | String _ (String _ (String _ (String _ rest))) => rest
    | _ => s
    end
  else
    match s with
    | EmptyString => EmptyString
    | String c s' => String c (sub_dot_git s')
    end.

(** [prepare_extra_summary(test)], on the attributes of the test that
    it reads: the url of the fmf identifier, the name, the summary and
    the key [extra-summary] of the node. *)
Definition prepare_extra_summary (url tname : string)
  (summary extra_summary : option string) : error + string :=
  let remote_dirname := sub_dot_git (basename url) in
  if bool_decide (remote_dirname = "") then
    inl (ConvertError "Unable to find git remote url.")
  else
    let generated := remote_dirname +:+ " " +:+ tname in
    let generated :=
      match summary with
      | None | Some EmptyString => generated
      | Some text => generated +:+ " - " +:+ text
      end in
    inr (default generated extra_summary).

(** [str.split] at line feeds and [str.join] with line feeds. *)
Fixpoint split_LF (s : string) : list string :=
  match s with
  | EmptyString => [EmptyString]
  | String c s' =>
      if Ascii.eqb c Py.LF then EmptyString :: split_LF s'
      else match split_LF s' with
           | l :: ls => String c l :: ls
           | [] => [String c EmptyString]
           end
  end.

Fixpoint has_LF (s : string) : bool :=
  match s with
  | EmptyString => false
  | String c s' => Ascii.eqb c Py.LF || has_LF s'
  end.

Fixpoint join_LF (ls : list string) : string :=
  match ls with
  | [] => EmptyString
  | [l] => l
  | l :: ls' => l +:+ NL +:+ join_LF ls'
  end.

Fixpoint ends_with_md (s : string) : bool :=
  match s with
  | EmptyString => false
  | String c s' => bool_decide (s = ".md") || ends_with_md s'
  end.

(** A line that the pattern [.+\.md$] matches, and then as a whole: it
    ends in [.md] after at least one more character. *)
Definition is_md_line (line : string) : bool :=
  ends_with_md line && negb (bool_decide (line = ".md")).

(** [return_markdown_file()], on the listing and the name of the
    current directory: the path and what is printed in yellow.  With
    [re.M] the pattern is matched line by line on the joined listing. *)
Definition return_markdown_file (listing : list string) (cwd : string)
  : string * list string :=
  let files := join_LF listing in
  let md_files := filter (fun l => is_md_line l) (split_LF files) in
  let fail_message :=
    "in the current working directory." +:+ NL
    +:+ "Manual steps couldn't be exported" in
  match md_files with
  | [md] => (Py.path_join cwd md, [])
  | [] => ("", ["Markdown file doesn't exist " +:+ fail_message])
  | _ =>
      ("", [pretty (length md_files) +:+ " Markdown files found "
            +:+ fail_message])
  end.

End NitrateExport.

(** * Further example plans *)

Module FurtherExamples.

(** A plan configured with a method that no plugin provides. *)
Definition unknown_plan : Plan Reference.State :=
  Examples.plan true None [Examples.how "restraint"] [] [] ["guest"].

(** A plan woken up in a working directory with a results file. *)
Definition with_results_file (content : string) : Plan Reference.State :=
  set_world
    (set_files (<["/run/plans/basic/execute/results.yaml" := content]>)
       Examples.world0)
    Examples.stranded_plan.

Definition saved_plan : Plan Reference.State :=
  with_results_file
    (Reference.dict_to_yaml (results_store (execute Examples.done_plan))).

Definition torn_plan : Plan Reference.State :=
  with_results_file "results".

(** A run in which the test [/a] has two results. *)
Definition failed_again : Result :=
  Result_init {[ "result" := VStr "fail" ]} "/a" None.

Definition repeated_plan : Plan Reference.State :=
  Examples.plan true (Some "done") [Examples.how "tmt"] [Reference.executor]
    [Examples.passed; Examples.timed_out; failed_again] ["guest"].

(** A plugin whose [go] raises. *)
Definition failing (class : PhaseClass) : Phase Reference.State := {|
  ph_class := class;
  ph_wake := fun w => w;
  ph_go := fun _ => raise (GeneralError "Command failed.");
  ph_enabled_on_guest := fun _ => true;
  ph_results := fun _ => [];
  ph_requires := fun _ => []
|}.

Definition failing_plan : Plan Reference.State :=
  Examples.plan true (Some "todo") [Examples.how "tmt"]
    [Reference.executor; failing ExecutePluginClass] []
    ["client"; "server"].

(** A report plugin that prints the number of results. *)
Definition display : Phase Reference.State := {|
  ph_class := ReportPluginClass;
  ph_wake := emit (Debug "display" 1);
  ph_go := fun _ => modify (fun w =>
    emit (Info "results" (pretty (length (ext w))) "blue" 1) w);
  ph_enabled_on_guest := fun _ => true;
  ph_results := fun _ => [];
  ph_requires := fun _ => []
|}.

Definition reporting_plan (ps : list (Phase Reference.State))
  : Plan Reference.State :=
  set_report (set_rstep (set_phases ps)) Examples.ready_plan.

(** The inherited wake-up and the plugin resolution of the report
    step, for the plugin above. *)
Definition Report_Step_wake (r : Report Reference.State)
  (w : World Reference.State)
  : Report Reference.State * World Reference.State := (r, w).

Definition ReportPlugin_delegate (c : StepCore Reference.State) (d : Dict)
  : exn + Phase Reference.State :=
  match d !! "how" with
  | Some (VStr "display") => inr display
  | _ => inl (SpecificationError "Unsupported report method.")
  end.

Definition configured_plan (d : list Dict) : Plan Reference.State :=
  set_report (set_rstep (set_data d)) Examples.ready_plan.

(** The plans of the report step: two plugins, a plugin that fails
    between two others, two records, and a record that no plugin
    provides between two others. *)
Definition reported_plan : Plan Reference.State :=
  reporting_plan [display; display].
Definition failing_report_plan : Plan Reference.State :=
  reporting_plan [display; failing ReportPluginClass; display].
Definition displayed_plan : Plan Reference.State :=
  configured_plan [Examples.how "display"; Examples.how "display"].
Definition html_plan : Plan Reference.State :=
  configured_plan
    [Examples.how "display"; Examples.how "html"; Examples.how "display"].

End FurtherExamples.

(** * Properties *)

Section Properties.

Context {Ext : Type} `{!Collaborators Ext}.

Implicit Types (w : World Ext) (p : Plan Ext) (test : Test).


Lemma timeout_hint_run wd test w :
  timeout_hint wd test w = (inr tt, with_hint wd test w).
Proof. reflexivity. Qed.

(** Below an absolute working directory, as tmt uses, the file that
    [write] reaches is the output log that [data_path] names. *)
Lemma path_join_absolute (a b : string) :
  Py.startswith a "/" = true -> Py.startswith (Py.path_join a b) "/" = true.
Proof.
  intros Ha. unfold Py.path_join.
  destruct (Py.startswith b "/") eqn:Hb; [done|].
  destruct a as [|c a]; [done|].
  destruct (bool_decide _ || _); unfold Py.startswith in *.
  - change (String c a +:+ b) with (String c (a +:+ b)).
    cbn -[Ascii.eqb] in *. by destruct (Ascii.eqb _ c).
  - change (String c a +:+ "/" +:+ b) with (String c (a +:+ "/" +:+ b)).
    cbn -[Ascii.eqb] in *. by destruct (Ascii.eqb _ c).
Qed.

Lemma output_log_absolute (wd : string) test :
  Py.startswith wd "/" = true ->
  output_log wd test = data_path wd test (Some TEST_OUTPUT_FILENAME) true.
Proof.
  intros Hwd. unfold output_log, Py.path_join at 1.
  assert (Hout : Py.startswith
            (data_path wd test (Some TEST_OUTPUT_FILENAME) true) "/" = true).
  { unfold data_path, Py.path_join_all. simpl.
    by do 3 apply path_join_absolute. }
  by rewrite Hout.
Qed.


(** *** The two searches of [check_beakerlib] *)


Lemma strip_prefix_Some (lit s rest : string) :
  Py.strip_prefix lit s = Some rest -> s = lit +:+ rest.
Proof.
  revert s; induction lit as [|c lit IH]; intros [|b s]; simpl; try done.
  - by intros [= <-].
  - by intros [= <-].
  - destruct (Ascii.eqb_spec c b) as [->|]; [|done].
    intros Hs. by rewrite (IH _ Hs).
Qed.

(** A search that succeeds found its literal somewhere in the text. *)
Lemma re_search_Some {A} (at_front : string -> option A) (s : string) g :
  Py.re_search at_front s = Some g ->
  exists before after, s = before +:+ after /\ at_front after = Some g.
Proof.
  induction s as [|c s IH]; simpl.
  - destruct (at_front "") eqn:E; [|done].
    intros [= ->]. by exists "", "".
  - destruct (at_front (String c s)) eqn:E.
    + intros [= ->]. by exists "", (String c s).
    + intros (before & after & -> & Hg)%IH.
      by exists (String c before), after.
Qed.

(** A text in which the name of the state does not occur has no state,
    whatever else it holds. *)
Lemma state_absent (blob : string) :
  (forall before after, blob <> before +:+ "TESTRESULT_STATE=" +:+ after) ->
  Py.re_search Py.state_at blob = None.
Proof.
  intros Hno. destruct (Py.re_search Py.state_at blob) as [st|] eqn:E;
    [|done].
  apply re_search_Some in E as (before & after & -> & Hat).
  unfold Py.state_at in Hat.
  destruct (Py.strip_prefix _ after) as [rest|] eqn:Hp; [|done].
  apply strip_prefix_Some in Hp as ->.
  by destruct (Hno before rest).
Qed.

Lemma result_string_absent (blob : string) :
  (forall before after,
     blob <> before +:+ "TESTRESULT_RESULT_STRING=" +:+ after) ->
  Py.re_search Py.result_string_at blob = None.
Proof.
  intros Hno.
  destruct (Py.re_search Py.result_string_at blob) as [st|] eqn:E; [|done].
  apply re_search_Some in E as (before & after & -> & Hat).
  unfold Py.result_string_at in Hat.
  destruct (Py.strip_prefix _ after) as [rest|] eqn:Hp; [|done].
  apply strip_prefix_Some in Hp as ->.
  by destruct (Hno before rest).
Qed.




(** *** Running a step *)

Lemma emit_files (m : Msg) w : files (emit m w) = files w.
Proof. reflexivity. Qed.

Lemma done_pass_files (c : StepCore Ext) (m : Msg) w :
  go_keeps_files -> actions_keep_files ->
  files (done_pass c m w) = files w.
Proof.
  intros Hgo Hact. unfold done_pass.
  by rewrite Hact, !emit_files, Hgo.
Qed.

Lemma Execute_go_done p :
  status (step (execute p)) = Some "done" ->
  Execute_go p =
    (inr tt,
     set_world (done_pass (step (execute p))
                  (Execute_summary_line (execute p)) (world p)) p).
Proof.
  intros Hdone. unfold Execute_go, is_done.
  unfold mbind, M_bind, get at 1. cbv beta iota zeta.
  rewrite bool_decide_true by done.
  by destruct p.
Qed.

Lemma Report_go_done p :
  status (rstep (report p)) = Some "done" ->
  Report_go p =
    (inr tt,
     set_world (done_pass (rstep (report p))
                  (Report_summary_line (execute p)) (world p)) p).
Proof.
  intros Hdone. unfold Report_go, is_done.
  unfold mbind, M_bind, get at 1. cbv beta iota zeta.
  rewrite bool_decide_true by done.
  by destruct p.
Qed.

(** C1: on an execute or report step whose status is [done], [go]
    returns and mutates nothing: the step objects with their status and
    results, the files and the calls of collaborators are as before, and
    so they are after a second [go].  Both runs print the same summary
    line.  The inherited [go] and [actions] are taken to write no files,
    as the specification says of a step that is done. *)
Theorem go_when_done_is_idempotent p :
  go_keeps_files -> actions_keep_files ->
  (status (step (execute p)) = Some "done" ->
   exists p1 p2,
     returns Execute_go p tt p1 /\ returns Execute_go p1 tt p2 /\
     execute p1 = execute p /\ execute p2 = execute p /\
     report p1 = report p /\ report p2 = report p /\
     calls p1 = calls p /\ calls p2 = calls p /\
     files (world p1) = files (world p) /\
     files (world p2) = files (world p) /\
     world p1 = done_pass (step (execute p))
                  (Execute_summary_line (execute p)) (world p) /\
     world p2 = done_pass (step (execute p))
                  (Execute_summary_line (execute p)) (world p1)) /\
  (status (rstep (report p)) = Some "done" ->
   exists p1 p2,
     returns Report_go p tt p1 /\ returns Report_go p1 tt p2 /\
     execute p1 = execute p /\ execute p2 = execute p /\
     report p1 = report p /\ report p2 = report p /\
     calls p1 = calls p /\ calls p2 = calls p /\
     files (world p1) = files (world p) /\
     files (world p2) = files (world p) /\
     world p1 = done_pass (rstep (report p))
                  (Report_summary_line (execute p)) (world p) /\
     world p2 = done_pass (rstep (report p))
                  (Report_summary_line (execute p)) (world p1)).
Proof.
  intros Hgo Hact. split; intros Hdone.
  - eexists _, _. split; [by apply Execute_go_done|].
    split; [by apply Execute_go_done|]. simpl.
    by rewrite !done_pass_files.
  - eexists _, _. split; [by apply Report_go_done|].
    split; [by apply Report_go_done|]. simpl.
    by rewrite !done_pass_files.
Qed.

(** C4: when the status is not [done] and there is no guest, [go] of
    the execute step raises the execution error.  The step keeps its
    status, which is not [done], and its results; no phase has run and
    no file is written.  The inherited [go] is taken to write no files. *)
Theorem go_without_guests (p : Plan Ext) :
  go_keeps_files ->
  status (step (execute p)) <> Some "done" ->
  guests p = [] ->
  exists p',
    raises Execute_go p
      (ExecuteError "No guests available for execution.") p' /\
    execute p' = execute p /\
    status (step (execute p')) <> Some "done" /\
    Execute_results (execute p') = Execute_results (execute p) /\
    calls p' = calls p /\
    files (world p') = files (world p).
Proof.
  intros Hgo Hstatus Hguests.
  exists (set_world (Step_go (step (execute p)) (world p)) p).
  split.
  - unfold raises, Execute_go, is_done.
    unfold mbind, M_bind, get at 1. cbv beta iota zeta.
    rewrite bool_decide_false by done.
    rewrite bool_decide_true by done.
    by destruct p.
  - simpl. by rewrite Hgo.
Qed.

(** *** Saving and loading the results *)

Lemma setitem_fresh {V} (k : string) (v : V) (d : list (string * V)) :
  k ∉ fst <$> d -> Py.setitem k v d = (d ++ [(k, v)])%list.
Proof.
  induction d as [|[k' v'] d IH]; simpl; [done|].
  intros Hk. apply not_elem_of_cons in Hk as [Hne Hk].
  rewrite bool_decide_false by done. by rewrite IH.
Qed.

Lemma dict_of_app {V} (acc pairs : list (string * V)) :
  NoDup ((fst <$> acc) ++ (fst <$> pairs))%list ->
  foldl (fun d kv => Py.setitem kv.1 kv.2 d) acc pairs = (acc ++ pairs)%list.
Proof.
  revert acc; induction pairs as [|[k v] pairs IH]; intros acc Hnd; simpl.
  - by rewrite app_nil_r.
  - rewrite setitem_fresh.
    + rewrite IH; [by rewrite <-app_assoc|].
      rewrite fmap_app; simpl. by rewrite <-app_assoc.
    + apply NoDup_app in Hnd as (_ & Hdisj & _).
      intros Hin. apply (Hdisj _ Hin). simpl. apply list_elem_of_here.
Qed.

(** Unique keys: the dictionary holds the pairs as they were given. *)
Lemma dict_of_NoDup {V} (pairs : list (string * V)) :
  NoDup (fst <$> pairs) -> Py.dict_of pairs = pairs.
Proof. intros Hnd. unfold Py.dict_of. by rewrite dict_of_app. Qed.

Lemma results_store_NoDup (e : Execute Ext) :
  NoDup (res_name <$> Execute_results e) ->
  results_store e = (fun r => (res_name r, export r)) <$> Execute_results e.
Proof.
  intros Hnd. unfold results_store. apply dict_of_NoDup.
  by rewrite <-list_fmap_compose.
Qed.

Lemma Result_of_export (rs : list Result) :
  (fun '(test, data) => Result_init data test None)
    <$> ((fun r => (res_name r, export r)) <$> rs) = rs.
Proof.
  induction rs as [|[n d] rs IH]; [done|].
  rewrite !fmap_cons, IH. done.
Qed.

Lemma Execute_save_run p (d : Dict) :
  Execute_save d p =
    (inr tt,
     set_world (set_files
       (<[results_yaml (step (execute p)) :=
            dict_to_yaml (results_store (execute p))]>)
       (Step_save d (step (execute p)) (world p))) p).
Proof. by destruct p. Qed.

Lemma Execute_load_found p (keys : list string) content store :
  files (Step_load keys (step (execute p)) (world p)).2
    !! results_yaml (Step_load keys (step (execute p)) (world p)).1
    = Some content ->
  yaml_to_dict content = inr store ->
  exists p',
    returns (Execute_load keys) p tt p' /\
    Execute_results (execute p') =
      (fun '(test, data) => Result_init data test None) <$> store.
Proof.
  intros Hfile Hyaml. unfold returns, Execute_load.
  unfold mbind, M_bind, get at 1. cbv beta iota zeta.
  unfold try_except, in_world, zoom, read, modify, mbind, M_bind.
  cbv beta iota zeta. simpl.
  unfold results_yaml in Hfile. rewrite Hfile, Hyaml. simpl.
  eexists; split; reflexivity.
Qed.

(** C5: after [save], a [load] in any later state of the plan that
    finds the files as [save] left them and the same working directory
    rebuilds the list of results: as many records, each with its name
    and its record of outcome, log, duration and note, in the order of
    [results()].  The names are unique, the YAML functions give back the
    dictionary they serialized, and the inherited [load] only reads. *)
Theorem save_load_roundtrip p (d : Dict) (keys : list string) :
  load_only_reads ->
  NoDup (res_name <$> Execute_results (execute p)) ->
  yaml_to_dict (dict_to_yaml (results_store (execute p)))
    = inr (results_store (execute p)) ->
  exists p1,
    returns (Execute_save d) p tt p1 /\
    forall q,
      files (world q) = files (world p1) ->
      workdir (step (execute q)) = workdir (step (execute p)) ->
      exists p2,
        returns (Execute_load keys) q tt p2 /\
        Execute_results (execute p2) = Execute_results (execute p) /\
        length (Execute_results (execute p2))
          = length (Execute_results (execute p)) /\
        forall (i : nat) (r : Result),
          Execute_results (execute p) !! i = Some r ->
          exists r',
            Execute_results (execute p2) !! i = Some r' /\
            res_name r' = res_name r /\ outcome r' = outcome r /\
            res_duration r' = res_duration r /\ log r' = log r /\
            note r' = note r.
Proof.
  intros Hload Hnd Hyaml.
  eexists. split; [apply Execute_save_run|].
  intros q Hfiles Hwd.
  destruct (Hload keys (step (execute q)) (world q)) as [Hf Hw].
  destruct (Execute_load_found q keys
              (dict_to_yaml (results_store (execute p)))
              (results_store (execute p))) as (p2 & Hret & Hres).
  - rewrite Hf, Hfiles. unfold results_yaml. rewrite Hw, Hwd. simpl.
    apply lookup_insert_eq.
  - done.
  - exists p2. split; [done|].
    rewrite Hres, results_store_NoDup, Result_of_export by done.
    repeat split. intros i r Hi. by exists r.
Qed.

(** C10: when the file of the results cannot be read, [load] of the
    execute step returns without an exception and leaves the results in
    memory as they were; they are empty when they were empty before, as
    they are in a step that has just been created.  [load] prints the
    debug line. *)
Theorem load_without_results_file p (keys : list string) :
  files (Step_load keys (step (execute p)) (world p)).2
    !! results_yaml (Step_load keys (step (execute p)) (world p)).1
    = None ->
  (exists p',
     returns (Execute_load keys) p tt p' /\
     Execute_results (execute p') = Execute_results (execute p) /\
     (Execute_results (execute p) = [] ->
      Execute_results (execute p') = []) /\
     world p' = emit (Debug "Test results not found." 2)
                  (Step_load keys (step (execute p)) (world p)).2) /\
  (forall (wd : string) (d : list Dict) (q : Plan Ext),
     Execute_results (execute (Execute_init wd d q).2) = []).
Proof.
  intros Hfile. split.
  - unfold returns, Execute_load.
    unfold mbind, M_bind, get at 1. cbv beta iota zeta.
    unfold try_except, in_world, zoom, read, modify, mbind, M_bind.
    cbv beta iota zeta. simpl.
    unfold results_yaml in Hfile. rewrite Hfile. simpl.
    eexists; split; [reflexivity|]. by destruct p.
  - intros wd d q. unfold Execute_init.
    unfold mbind, M_bind, modify, get. cbv beta iota zeta. simpl.
    destruct (my_run q); simpl; [done|].
    unfold Execute_map_old_methods.
    unfold mbind, M_bind, modify, get. cbv beta iota zeta. simpl.
    destruct d as [|d0 ds]; [done|].
    destruct (d0 !! "how") as [[how|]|]; try done.
    by destruct (Py.old_method how).
Qed.

(** *** Required packages *)

Lemma requires_fold (ps : list (Phase Ext)) w (acc : gset string) x :
  x ∈ foldl (fun (requires : gset string) plugin =>
               requires ∪ list_to_set (ph_requires plugin w)) acc ps
  <-> x ∈ acc \/ exists ph, ph ∈ ps /\ x ∈ ph_requires ph w.
Proof.
  revert acc; induction ps as [|ph ps IH]; intros acc; simpl.
  - split; [by left|]. intros [?|(ph & Hph & _)]; [done|].
    by apply not_elem_of_nil in Hph.
  - rewrite IH, elem_of_union, elem_of_list_to_set. split.
    + intros [[?|?]|(ph' & Hin & Hx)]; [by left|right..].
      * exists ph. split; [apply list_elem_of_here|done].
      * exists ph'. split; [by apply list_elem_of_further|done].
    + intros [?|(ph' & Hin & Hx)]; [by left; left|].
      apply elem_of_cons in Hin as [->|Hin]; [by left; right|].
      right. by exists ph'.
Qed.

Lemma requires_of_elem (ps : list (Phase Ext)) w x :
  x ∈ requires_of ps w <-> exists ph, ph ∈ ps /\ x ∈ ph_requires ph w.
Proof.
  unfold requires_of. rewrite elem_of_elements, requires_fold.
  split; [intros [Hx|?]; [|done]|by right].
  by apply not_elem_of_empty in Hx.
Qed.

Lemma requires_of_same_union (ps ps' : list (Phase Ext)) w w' :
  (forall x, (exists ph, ph ∈ ps /\ x ∈ ph_requires ph w)
             <-> (exists ph, ph ∈ ps' /\ x ∈ ph_requires ph w')) ->
  requires_of ps w = requires_of ps' w'.
Proof.
  intros Hsame. unfold requires_of. f_equal.
  apply set_eq. intros x. rewrite !requires_fold.
  rewrite Hsame. done.
Qed.

(** C7: [requires()] of the execute step and of the report step is a
    list without duplicates whose elements are exactly the packages
    that some phase of the step's plugin class requires.  Two lists of
    phases with the same union give the same list, whatever the
    overlap between the phases and the order of phases and packages. *)
Theorem requires_is_union p :
  (NoDup (Execute_requires p) /\
   forall x, x ∈ Execute_requires p <->
     exists ph, ph ∈ _phases (step (execute p)) /\
                ph_class ph = ExecutePluginClass /\
                x ∈ ph_requires ph (world p)) /\
  (NoDup (Report_requires p) /\
   forall x, x ∈ Report_requires p <->
     exists ph, ph ∈ _phases (rstep (report p)) /\
                ph_class ph = ReportPluginClass /\
                x ∈ ph_requires ph (world p)) /\
  (forall (ps ps' : list (Phase Ext)) w w',
     (forall x, (exists ph, ph ∈ ps /\ x ∈ ph_requires ph w)
                <-> (exists ph, ph ∈ ps' /\ x ∈ ph_requires ph w')) ->
     requires_of ps w = requires_of ps' w').
Proof.
  split; [|split; [|apply requires_of_same_union]].
  - split; [apply NoDup_elements|].
    intros x. unfold Execute_requires. rewrite requires_of_elem.
    simpl. setoid_rewrite list_elem_of_filter.
    split; [intros (ph & [Hc Hin] & Hx)|intros (ph & Hin & Hc & Hx)];
      by exists ph.
  - split; [apply NoDup_elements|].
    intros x. unfold Report_requires. rewrite requires_of_elem.
    simpl. setoid_rewrite list_elem_of_filter.
    split; [intros (ph & [Hc Hin] & Hx)|intros (ph & Hin & Hc & Hx)];
      by exists ph.
Qed.

(** *** The loops of [Execute.go] *)

Lemma Execute_go_phase_run (g : Guest) (ph : Phase Ext) p :
  (ph_go ph (Some g) (world p)).1 = inr tt ->
  Execute_go_phase g ph p =
    (inr tt, if ph_enabled_on_guest ph g then run_phase p (g, ph) else p).
Proof.
  intros Hgo. unfold Execute_go_phase, run_phase.
  destruct (ph_enabled_on_guest ph g); [|done].
  unfold mbind, M_bind, modify, in_world, zoom, get. simpl.
  destruct (ph_go ph (Some g) (world p)) as [r w'] eqn:E.
  simpl in Hgo. subst r. simpl.
  by destruct (bool_decide (ph_class ph = ExecutePluginClass)).
Qed.

Lemma for_each_phases (g : Guest) (ps : list (Phase Ext)) p :
  (forall ph w, ph ∈ ps -> (ph_go ph (Some g) w).1 = inr tt) ->
  for_each ps (Execute_go_phase g) p =
    (inr tt,
     foldl run_phase p
       ((fun ph => (g, ph)) <$> filter (fun ph => ph_enabled_on_guest ph g) ps)).
Proof.
  revert p; induction ps as [|ph ps IH]; intros p Hret; [done|].
  simpl. unfold mbind, M_bind.
  rewrite Execute_go_phase_run by (apply Hret, list_elem_of_here).
  rewrite IH by (intros; by apply Hret, list_elem_of_further).
  rewrite filter_cons.
  by destruct (ph_enabled_on_guest ph g).
Qed.

(** What a sequence of invocations does to the plan. *)
Lemma run_invocations (gps : list (Guest * Phase Ext)) p :
  let p' := foldl run_phase p gps in
  calls p' = (calls p ++ ((fun gp => CallPhaseGo gp.2 (Some gp.1)) <$> gps))%list
  /\ _results (execute p')
     = (_results (execute p) ++ concat (gathered gps (world p)).1)%list
  /\ world p' = (gathered gps (world p)).2
  /\ step (execute p') = step (execute p)
  /\ guests p' = guests p /\ report p' = report p
  /\ plan_name p' = plan_name p /\ my_run p' = my_run p.
Proof.
  revert p; induction gps as [|gp gps IH]; intros p; simpl.
  - by rewrite !app_nil_r.
  - destruct (IH (run_phase p gp))
      as (Hc & Hr & Hw & Hs & Hg & Hrep & Hn & Hm).
    rewrite Hc, Hr, Hw, Hs, Hg, Hrep, Hn, Hm. clear.
    unfold run_phase, invoke.
    destruct (bool_decide (ph_class gp.2 = ExecutePluginClass)); simpl;
      rewrite <-?app_assoc; done.
Qed.

Lemma for_each_guests (gs : list Guest) p :
  phases_return (step (execute p)) ->
  for_each gs Execute_go_guest p =
    (inr tt,
     foldl run_phase p (invocations gs (_phases (step (execute p))))).
Proof.
  revert p; induction gs as [|g gs IH]; intros p Hret; [done|].
  simpl. unfold mbind at 1, M_bind at 1.
  unfold Execute_go_guest at 1, mbind at 1, M_bind at 1, get at 1.
  cbv beta iota zeta. simpl.
  rewrite for_each_phases by (intros; by apply Hret).
  set (here := (fun ph => (g, ph)) <$> _).
  destruct (run_invocations here p) as (_ & _ & _ & Hs & _).
  rewrite IH by (by rewrite Hs).
  rewrite Hs. unfold invocations. simpl.
  by rewrite foldl_app.
Qed.



(** *** Waking up the execute step *)

(** C8: when the configuration of the execute step, as the inherited
    [wake] leaves it, has more than one record, [wake] raises the
    specification error.  Nothing has happened beyond the inherited
    [wake]: no plugin is resolved or woken, no phase is added or run. *)
Theorem wake_rejects_multiple p :
  (1 < length (data (step (woken p).1)))%nat ->
  exists p',
    raises Execute_wake p
      (SpecificationError
         ("Multiple execute steps defined in '" +:+ plan_name p +:+ "'."))
      p' /\
    calls p' = calls p /\
    execute p' = (woken p).1 /\
    world p' = (woken p).2.
Proof.
  intros Hmany. unfold raises, Execute_wake.
  unfold mbind at 1, M_bind at 1, modify at 1. cbv beta iota zeta.
  unfold mbind at 1, M_bind at 1, get at 1. cbv beta iota zeta.
  fold (woken p). simpl.
  rewrite bool_decide_true by done.
  eexists. split; [reflexivity|]. done.
Qed.




End Properties.

(** * The properties on the example plans *)

#[local] Existing Instance Reference.collaborators.

Lemma reference_go_keeps_files : go_keeps_files (Ext := Reference.State).
Proof. intros c w. reflexivity. Defined.

Lemma reference_actions_keep_files :
  actions_keep_files (Ext := Reference.State).
Proof. intros c w. reflexivity. Defined.

Lemma reference_load_only_reads : load_only_reads (Ext := Reference.State).
Proof. intros keys c w. split; reflexivity. Defined.

Lemma go_when_done_witness :
  go_keeps_files (Ext := Reference.State) /\
  actions_keep_files (Ext := Reference.State) /\
  status (step (execute Examples.done_plan)) = Some "done" /\
  status (rstep (report Examples.done_plan)) = Some "done" /\
  (exists p1, returns Execute_go Examples.done_plan tt p1 /\
              execute p1 = execute Examples.done_plan /\
              files (world p1) = files (world Examples.done_plan)) /\
  (exists p1, returns Report_go Examples.done_plan tt p1 /\
              execute p1 = execute Examples.done_plan /\
              files (world p1) = files (world Examples.done_plan)).
Proof.
  split; [exact reference_go_keeps_files|].
  split; [exact reference_actions_keep_files|].
  split; [reflexivity|]. split; [reflexivity|].
  destruct (go_when_done_is_idempotent Examples.done_plan
              reference_go_keeps_files reference_actions_keep_files)
    as [HE HR].
  split.
  - destruct (HE eq_refl)
      as (p1 & p2 & H1 & _ & He & _ & _ & _ & _ & _ & Hf & _).
    exists p1. split; [exact H1|]. split; [exact He|exact Hf].
  - destruct (HR eq_refl)
      as (p1 & p2 & H1 & _ & He & _ & _ & _ & _ & _ & Hf & _).
    exists p1. split; [exact H1|]. split; [exact He|exact Hf].
Defined.

Lemma go_without_guests_witness :
  go_keeps_files (Ext := Reference.State) /\
  status (step (execute Examples.stranded_plan)) <> Some "done" /\
  guests Examples.stranded_plan = [] /\
  exists p',
    raises Execute_go Examples.stranded_plan
      (ExecuteError "No guests available for execution.") p' /\
    execute p' = execute Examples.stranded_plan.
Proof.
  assert (Hs : status (step (execute Examples.stranded_plan))
               <> Some "done") by discriminate.
  split; [exact reference_go_keeps_files|].
  split; [exact Hs|]. split; [reflexivity|].
  destruct (go_without_guests Examples.stranded_plan
              reference_go_keeps_files Hs eq_refl)
    as (p' & Hraise & He & _).
  exists p'. split; [exact Hraise|exact He].
Defined.

Lemma save_load_witness :
  load_only_reads (Ext := Reference.State) /\
  NoDup (res_name <$> Execute_results (execute Examples.done_plan)) /\
  yaml_to_dict (dict_to_yaml (results_store (execute Examples.done_plan)))
    = inr (results_store (execute Examples.done_plan)) /\
  exists p1 p2,
    returns (Execute_save ∅) Examples.done_plan tt p1 /\
    returns (Execute_load []) (set_execute (set_results []) p1) tt p2 /\
    Execute_results (execute p2) = [Examples.passed; Examples.timed_out].
Proof.
  assert (Hnd : NoDup (res_name
                         <$> Execute_results (execute Examples.done_plan))).
  { refine (bool_decide_unpack _ _). vm_compute. exact I. }
  assert (Hyaml :
    yaml_to_dict (dict_to_yaml (results_store (execute Examples.done_plan)))
    = inr (results_store (execute Examples.done_plan))).
  { vm_compute. reflexivity. }
  split; [exact reference_load_only_reads|].
  split; [exact Hnd|]. split; [exact Hyaml|].
  destruct (save_load_roundtrip Examples.done_plan ∅ []
              reference_load_only_reads Hnd Hyaml) as (p1 & Hsave & Hload).
  destruct (Hload (set_execute (set_results []) p1) eq_refl)
    as (p2 & Hret & Hres & _).
  { unfold returns in Hsave. injection Hsave as <-. reflexivity. }
  exists p1, p2. split; [exact Hsave|]. split; [exact Hret|exact Hres].
Defined.


Lemma wake_rejects_multiple_witness :
  (1 < length (data (step (woken Examples.doubled_plan).1)))%nat /\
  exists p',
    raises Execute_wake Examples.doubled_plan
      (SpecificationError
         "Multiple execute steps defined in '/plans/basic'.") p' /\
    calls p' = [].
Proof.
  assert (Hmany :
    (1 < length (data (step (woken Examples.doubled_plan).1)))%nat).
  { simpl. lia. }
  split; [exact Hmany|].
  destruct (wake_rejects_multiple Examples.doubled_plan Hmany)
    as (p' & Hraise & Hcalls & _).
  exists p'. split; [exact Hraise|exact Hcalls].
Defined.



Lemma load_without_results_file_witness :
  files (Step_load [] (step (execute Examples.stranded_plan))
           (world Examples.stranded_plan)).2
    !! results_yaml (Step_load [] (step (execute Examples.stranded_plan))
                       (world Examples.stranded_plan)).1 = None /\
  exists p',
    returns (Execute_load []) Examples.stranded_plan tt p' /\
    Execute_results (execute p') = [].
Proof.
  assert (Hfile :
    files (Step_load [] (step (execute Examples.stranded_plan))
             (world Examples.stranded_plan)).2
      !! results_yaml (Step_load [] (step (execute Examples.stranded_plan))
                         (world Examples.stranded_plan)).1 = None)
    by reflexivity.
  split; [exact Hfile|].
  destruct (load_without_results_file Examples.stranded_plan [] Hfile)
    as [(p' & Hret & _ & Hempty & _) _].
  exists p'. split; [exact Hret|exact (Hempty eq_refl)].
Defined.

(** The two scenarios of the specification: exit code 1 and the
    timeout sentinel. *)
Example check_shell_fail :
  let test := {| name := "/tests/smoke"; duration := "5m"; returncode := 1;
                 real_duration := "00:00:02"; result := "respect" |} in
  match check_shell "/run/execute" test Examples.world0 with
  | (inr res, w') =>
      outcome res = Some (VStr "fail") /\ note res = None /\
      w' = Examples.world0
  | (inl _, _) => False
  end.
Proof. vm_compute. repeat split; reflexivity. Qed.

Example check_shell_timeout :
  match check_shell "/run/execute" Examples.slow_test Examples.world0 with
  | (inr res, w') =>
      outcome res = Some (VStr "error") /\
      note res = Some (VStr "timeout") /\
      files w' !! "/run/execute/data/tests/slow/output.txt"
        = Some (hint_text Examples.slow_test)
  | (inl _, _) => False
  end.
Proof. vm_compute. repeat split; reflexivity. Qed.

(** A state in double quotes that is not [complete], with a valid
    result string. *)
Example check_beakerlib_running :
  let test := {| name := "/tests/lib"; duration := "5m"; returncode := 0;
                 real_duration := "00:00:02"; result := "respect" |} in
  let blob := "TESTRESULT_STATE=" +:+ String Py.DQUOTE "running"
              +:+ String Py.DQUOTE NL +:+ "TESTRESULT_RESULT_STRING=PASS"
              +:+ NL in
  let w := set_files (<["/run/execute/data/tests/lib/TestResults" := blob]>)
             Examples.world0 in
  match check_beakerlib "/run/execute" test w with
  | (inr res, _) =>
      outcome res = Some (VStr "error") /\
      note res = Some (VStr "beakerlib: State 'running'")
  | (inl _, _) => False
  end.
Proof. vm_compute. repeat split; reflexivity. Qed.

(** Two results of one name, as two guests running the same test give:
    the dictionary that [save] builds keeps the later one only. *)
Example save_keeps_one_result_per_name :
  results_store
    (set_results [Examples.passed; Result_init ∅ "/a" None]
       (execute Examples.done_plan))
  = [("/a", ∅)].
Proof. reflexivity. Qed.

Example requires_without_duplicates :
  requires_of [Reference.executor; Reference.executor] Examples.world0
  = ["beakerlib"].
Proof. reflexivity. Qed.


(** * Properties of the further parts *)

Section FurtherProperties.

Context {Ext : Type} `{!Collaborators Ext}.

Implicit Types (w : World Ext) (p q : Plan Ext) (test : Test).

(** ** The old methods *)

Lemma strip_final_LF_inv (s h : string) :
  Py.strip_final_LF s = h -> s = h \/ s = h +:+ NL.
Proof.
  revert h; induction s as [|c s IH]; intros h; simpl.
  - intros <-. by left.
  - destruct s as [|c' s'].
    + destruct (Ascii.eqb_spec c Py.LF) as [->|_]; intros <-;
        [by right|by left].
    + intros <-.
      destruct (IH _ eq_refl) as [Hs|Hs].
      * left. by f_equal.
      * right.
        change (String c (Py.strip_final_LF (String c' s')) +:+ NL)
          with (String c (Py.strip_final_LF (String c' s') +:+ NL)).
        by f_equal.
Qed.

(** X1: a method counts as old exactly when it is [shell],
    [beakerlib], [shell.tmt] or [beakerlib.tmt], with or without one
    line feed after it; the framework is the part before [.tmt]. *)
Theorem old_method_exactly (how framework : string) :
  Py.old_method how = Some framework <->
  (framework = "shell" \/ framework = "beakerlib") /\
  (how = framework \/ how = framework +:+ ".tmt" \/
   how = framework +:+ NL \/ how = framework +:+ ".tmt" +:+ NL).
Proof.
  split.
  - unfold Py.old_method.
    destruct (bool_decide_reflect (Py.strip_final_LF how = "shell")) as [H|_];
      [|destruct (bool_decide_reflect
                    (Py.strip_final_LF how = "shell.tmt")) as [H|_];
        [|destruct (bool_decide_reflect
                      (Py.strip_final_LF how = "beakerlib")) as [H|_];
          [|destruct (bool_decide_reflect
                        (Py.strip_final_LF how = "beakerlib.tmt"))
              as [H|_]]]];
      simpl; try done; intros [= <-];
      apply strip_final_LF_inv in H as [->| ->]; split; auto.
  - intros [[-> | ->] [-> | [-> | [-> | ->]]]]; reflexivity.
Qed.

(** ** [Execute._map_old_methods] *)

Lemma map_old_methods_returns q (d0 : Dict) (ds : list Dict) (how : string) :
  data (step (execute q)) = d0 :: ds ->
  d0 !! "how" = Some (VStr how) ->
  Execute_map_old_methods q = (inr tt, normalized_plan q).
Proof.
  intros Hdata Hhow. unfold Execute_map_old_methods, normalized_plan.
  unfold mbind at 1, M_bind at 1, get at 1. cbv beta iota zeta.
  rewrite Hdata, Hhow.
  destruct (Py.old_method how) as [old|]; [|done].
  unfold mbind, M_bind, in_world, zoom, warn, modify. cbv beta iota zeta.
  simpl. unfold set_world, set_execute, emit_all, emit. simpl.
  rewrite <-!app_assoc. done.
Qed.

(** X2: for an old method, [_map_old_methods] returns, sets the method
    of the first record to [tmt] and keeps the other keys and records,
    stores the framework and prints the four warnings; files, results,
    status, phases and collaborator calls are as before. *)
Theorem map_old_methods_old q (d0 : Dict) (ds : list Dict)
  (how framework : string) :
  data (step (execute q)) = d0 :: ds ->
  d0 !! "how" = Some (VStr how) ->
  Py.old_method how = Some framework ->
  exists q',
    returns Execute_map_old_methods q tt q' /\
    (exists d0', data (step (execute q')) = d0' :: ds /\
       d0' !! "how" = Some (VStr "tmt") /\
       forall k, k <> "how" -> d0' !! k = d0 !! k) /\
    _framework (execute q') = framework /\
    out (world q') = (out (world q) ++ old_method_warnings how framework)%list
    /\
    files (world q') = files (world q) /\
    Execute_results (execute q') = Execute_results (execute q) /\
    status (step (execute q')) = status (step (execute q)) /\
    _phases (step (execute q')) = _phases (step (execute q)) /\
    calls q' = calls q.
Proof.
  intros Hdata Hhow Hold. exists (normalized_plan q).
  split; [by eapply map_old_methods_returns|].
  unfold normalized_plan. rewrite Hdata, Hhow, Hold. simpl.
  split; [|done].
  eexists. split; [done|]. split; [apply lookup_insert_eq|].
  intros k Hk. by apply lookup_insert_ne.
Qed.

(** X3: in every other case [_map_old_methods] changes nothing and
    prints nothing.  A method that is not old returns; a step without
    configuration record raises [IndexError], a first record without
    [how] raises [KeyError], and a [how] that is no string fails the
    assertion. *)
Theorem map_old_methods_otherwise q :
  (forall d0 ds how,
     data (step (execute q)) = d0 :: ds ->
     d0 !! "how" = Some (VStr how) ->
     Py.old_method how = None ->
     returns Execute_map_old_methods q tt q) /\
  (data (step (execute q)) = [] -> raises Execute_map_old_methods q IndexError q)
  /\
  (forall d0 ds,
     data (step (execute q)) = d0 :: ds ->
     (d0 !! "how" = None -> raises Execute_map_old_methods q KeyError q) /\
     (forall l, d0 !! "how" = Some (VList l) ->
                raises Execute_map_old_methods q AssertionError q)).
Proof.
  unfold returns, raises. split; [|split].
  - intros d0 ds how Hd Hh Ho. unfold Execute_map_old_methods.
    unfold mbind at 1, M_bind at 1, get at 1. cbv beta iota zeta.
    by rewrite Hd, Hh, Ho.
  - intros Hd. unfold Execute_map_old_methods.
    unfold mbind at 1, M_bind at 1, get at 1. cbv beta iota zeta.
    by rewrite Hd.
  - intros d0 ds Hd. split; [intros Hh|intros l Hh];
      unfold Execute_map_old_methods;
      unfold mbind at 1, M_bind at 1, get at 1; cbv beta iota zeta;
      by rewrite Hd, Hh.
Qed.

(** ** [Execute.wake] *)

Lemma normalized_plan_fields q (d0 : Dict) (how : string) :
  data (step (execute q)) = [d0] ->
  d0 !! "how" = Some (VStr how) ->
  data (step (execute (normalized_plan q)))
    = [(normalized d0 (_framework (execute q))).1] /\
  _framework (execute (normalized_plan q))
    = (normalized d0 (_framework (execute q))).2 /\
  _phases (step (execute (normalized_plan q))) = _phases (step (execute q)) /\
  status (step (execute (normalized_plan q))) = status (step (execute q)) /\
  workdir (step (execute (normalized_plan q))) = workdir (step (execute q)) /\
  _results (execute (normalized_plan q)) = _results (execute q) /\
  calls (normalized_plan q) = calls q /\
  plan_name (normalized_plan q) = plan_name q /\
  files (world (normalized_plan q)) = files (world q).
Proof.
  intros Hdata Hhow. unfold normalized_plan, normalized.
  rewrite Hdata, Hhow. destruct (Py.old_method how); simpl; by rewrite ?Hdata.
Qed.

(** The run of [wake] up to the resolution of the plugin. *)
Lemma Execute_wake_resolution p (d0 : Dict) (how : string) :
  data (step (woken p).1) = [d0] ->
  d0 !! "how" = Some (VStr how) ->
  Execute_wake p =
    (let q1 := normalized_plan (woken_plan p) in
     let nd := (normalized d0 (_framework (woken p).1)).1 in
     let q2 := record_call (CallDelegate nd) q1 in
     match delegate (step (execute q1)) nd with
     | inl e => (inl e, q2)
     | inr executor =>
         let q3 := set_execute (set_step
                     (fun c => set_phases (_phases c ++ [executor]) c))
                     (set_world (ph_wake executor (world q2))
                        (record_call (CallPhaseWake executor) q2)) in
         if is_done (step (execute q3)) then
           (inr tt,
            set_world
              (emit (Debug "Execute wake up complete (already done before)."
                       2) (world q3)) q3)
         else
           Execute_save ∅
             (set_execute (set_step (set_status (Some "todo"))) q3)
     end).
Proof.
  intros Hdata Hhow. unfold Execute_wake.
  unfold mbind at 1, M_bind at 1, modify at 1. cbv beta iota zeta.
  unfold mbind at 1, M_bind at 1, get at 1. cbv beta iota zeta.
  fold (woken p). fold (woken_plan p).
  change (data (step (execute (woken_plan p))))
    with (data (step (woken p).1)).
  rewrite Hdata. rewrite bool_decide_false by (simpl; lia).
  unfold mbind at 1, M_bind at 1.
  rewrite (map_old_methods_returns (woken_plan p) d0 [] how Hdata Hhow).
  cbv beta iota zeta.
  destruct (normalized_plan_fields (woken_plan p) d0 how Hdata Hhow)
    as (Hd & _).
  unfold mbind at 1, M_bind at 1, get at 1. cbv beta iota zeta.
  rewrite Hd.
  change (_framework (execute (woken_plan p)))
    with (_framework (woken p).1).
  unfold mbind at 1, M_bind at 1, mret at 1, M_ret at 1.
  cbv beta iota zeta.
  unfold mbind at 1, M_bind at 1, modify at 1. cbv beta iota zeta.
  unfold mbind at 1, M_bind at 1, raise_or_return.
  destruct (delegate _ _) as [e|executor]; [done|].
  unfold mret at 1, M_ret at 1. cbv beta iota zeta.
  unfold mbind at 1, M_bind at 1, modify at 1. cbv beta iota zeta.
  unfold mbind at 1, M_bind at 1, in_world at 1, zoom at 1, modify at 1.
  cbv beta iota zeta.
  unfold mbind at 1, M_bind at 1, modify at 1. cbv beta iota zeta.
  unfold mbind at 1, M_bind at 1, get at 1. cbv beta iota zeta.
  destruct (is_done _); [done|].
  unfold mbind at 1, M_bind at 1, modify at 1. cbv beta iota zeta.
  done.
Qed.

(** X4: with one configuration record whose method resolves to a
    plugin, [wake] returns.  The plugin is resolved once, from the
    normalized record, woken once and added after the phases the step
    had; the results are untouched.  A step that is done stays done and
    nothing is saved: after the plugin's [wake] only the debug line is
    printed.  Any other step becomes [todo] and the file of the results
    holds the results in memory. *)
Theorem wake_adds_one_phase p (d0 : Dict) (how : string)
  (executor : Phase Ext) :
  data (step (woken p).1) = [d0] ->
  d0 !! "how" = Some (VStr how) ->
  (forall c, delegate c (normalized d0 (_framework (woken p).1)).1
             = inr executor) ->
  exists p',
    returns Execute_wake p tt p' /\
    _phases (step (execute p')) =
      (_phases (step (woken p).1) ++ [executor])%list /\
    calls p' =
      (calls p ++ [CallDelegate (normalized d0 (_framework (woken p).1)).1;
                   CallPhaseWake executor])%list /\
    Execute_results (execute p') = Execute_results (woken p).1 /\
    (status (step (woken p).1) = Some "done" ->
     status (step (execute p')) = Some "done" /\
     world p' =
       emit (Debug "Execute wake up complete (already done before)." 2)
         (ph_wake executor (world (normalized_plan (woken_plan p))))) /\
    (status (step (woken p).1) <> Some "done" ->
     status (step (execute p')) = Some "todo" /\
     results_file_of p' = Some (dict_to_yaml (results_store (woken p).1))).
Proof.
  intros Hdata Hhow Hdel. unfold returns.
  rewrite (Execute_wake_resolution p d0 how Hdata Hhow).
  cbv beta iota zeta. rewrite Hdel.
  destruct (normalized_plan_fields (woken_plan p) d0 how Hdata Hhow)
    as (Hd & Hf & Hp & Hs & Hw & Hr & Hc & Hn & Hfiles).
  unfold is_done. simpl.
  change (status (step (execute (normalized_plan (woken_plan p)))))
    with (_status (step (execute (normalized_plan (woken_plan p))))).
  unfold status in Hs. rewrite Hs.
  change (_status (step (execute (woken_plan p))))
    with (status (step (woken p).1)).
  destruct (bool_decide_reflect (status (step (woken p).1) = Some "done"))
    as [Hdone|Hdone].
  - eexists. split; [reflexivity|]. simpl.
    rewrite Hp, Hc, Hr, <-app_assoc. unfold status in *. simpl.
    rewrite Hs. repeat split; done.
  - rewrite Execute_save_run. eexists. split; [reflexivity|].
    unfold results_file_of, results_yaml, results_store, Execute_results.
    simpl. rewrite Hp, Hc, Hr, Hw, <-app_assoc.
    repeat split; try done. apply lookup_insert_eq.
Qed.

(** X5: when the plugin cannot be resolved, [wake] raises the error of
    the resolution.  No phase is added or woken and nothing is saved,
    but the normalization has happened: the record and the framework
    are normalized and the warnings are printed. *)
Theorem wake_unresolved p (d0 : Dict) (how : string) (e : exn) :
  data (step (woken p).1) = [d0] ->
  d0 !! "how" = Some (VStr how) ->
  (forall c, delegate c (normalized d0 (_framework (woken p).1)).1 = inl e) ->
  exists p',
    raises Execute_wake p e p' /\
    _phases (step (execute p')) = _phases (step (woken p).1) /\
    status (step (execute p')) = status (step (woken p).1) /\
    calls p' =
      (calls p ++ [CallDelegate (normalized d0 (_framework (woken p).1)).1])%list
    /\
    data (step (execute p')) = [(normalized d0 (_framework (woken p).1)).1] /\
    _framework (execute p') = (normalized d0 (_framework (woken p).1)).2 /\
    world p' = world (normalized_plan (woken_plan p)) /\
    files (world p') = files (woken p).2.
Proof.
  intros Hdata Hhow Hdel. unfold raises.
  rewrite (Execute_wake_resolution p d0 how Hdata Hhow).
  cbv beta iota zeta. rewrite Hdel.
  destruct (normalized_plan_fields (woken_plan p) d0 how Hdata Hhow)
    as (Hd & Hf & Hp & Hs & Hw & Hr & Hc & Hn & Hfiles).
  eexists. split; [reflexivity|]. simpl.
  rewrite Hp, Hc, Hd, Hf, Hfiles. unfold status in *. by rewrite Hs.
Qed.

(** ** [Execute.load] and [Execute.save] *)

Lemma Execute_load_read p (keys : list string) (content : string) :
  files (Step_load keys (step (execute p)) (world p)).2
    !! results_yaml (Step_load keys (step (execute p)) (world p)).1
    = Some content ->
  Execute_load keys p =
    (let q := set_world (Step_load keys (step (execute p)) (world p)).2
                (set_execute (set_step (fun _ =>
                   (Step_load keys (step (execute p)) (world p)).1)) p) in
     match yaml_to_dict content with
     | inr store =>
         (inr tt, set_execute (set_results (results_of_store store)) q)
     | inl FileError =>
         (inr tt, set_world (emit (Debug "Test results not found." 2)
                               (world q)) q)
     | inl e => (inl e, q)
     end).
Proof.
  intros Hfile. unfold Execute_load.
  unfold mbind at 1, M_bind at 1, get at 1. cbv beta iota zeta.
  unfold try_except, in_world, zoom, read, modify, mbind, M_bind.
  cbv beta iota zeta. simpl.
  unfold results_yaml in Hfile. rewrite Hfile. simpl.
  destruct (yaml_to_dict content) as [[]|store]; done.
Qed.

(** X6: when the file of the results is read and parsed, [load]
    returns and replaces the results in memory, whatever they were, by
    one result for each record of the file, in the order of the file,
    with the name and the record as they stand there.  It prints
    nothing and leaves step and world as the inherited [load] did. *)
Theorem load_replaces_results p (keys : list string) (content : string)
  (store : list (string * Dict)) :
  files (Step_load keys (step (execute p)) (world p)).2
    !! results_yaml (Step_load keys (step (execute p)) (world p)).1
    = Some content ->
  yaml_to_dict content = inr store ->
  exists p',
    returns (Execute_load keys) p tt p' /\
    Execute_results (execute p') = results_of_store store /\
    length (Execute_results (execute p')) = length store /\
    (forall (i : nat) (tname : string) (record : Dict),
       store !! i = Some (tname, record) <->
       exists r, Execute_results (execute p') !! i = Some r /\
                 res_name r = tname /\ export r = record) /\
    step (execute p') = (Step_load keys (step (execute p)) (world p)).1 /\
    world p' = (Step_load keys (step (execute p)) (world p)).2 /\
    calls p' = calls p.
Proof.
  intros Hfile Hyaml. unfold returns.
  rewrite (Execute_load_read p keys content Hfile), Hyaml.
  eexists. split; [reflexivity|]. simpl.
  split; [done|]. split; [unfold results_of_store; by rewrite length_fmap|].
  split; [|done].
  intros i tname record. unfold results_of_store.
  rewrite list_lookup_fmap. split.
  - intros ->. by eexists.
  - intros (r & Hr & <- & <-).
    destruct (store !! i) as [[t d]|]; [|done].
    simpl in Hr. by injection Hr as <-.
Qed.

(** X7: an exception of the YAML parser other than the file error
    leaves [load] as it is, with the results in memory untouched; a
    file error raised while parsing is taken for a missing file, so
    [load] returns with the debug line and the results untouched. *)
Theorem load_parse_errors p (keys : list string) (content : string)
  (e : exn) :
  files (Step_load keys (step (execute p)) (world p)).2
    !! results_yaml (Step_load keys (step (execute p)) (world p)).1
    = Some content ->
  yaml_to_dict content = inl e ->
  exists p',
    Execute_results (execute p') = Execute_results (execute p) /\
    calls p' = calls p /\
    files (world p') = files (Step_load keys (step (execute p)) (world p)).2
    /\
    (e = FileError -> returns (Execute_load keys) p tt p') /\
    (e <> FileError -> raises (Execute_load keys) p e p').
Proof.
  intros Hfile Hyaml. unfold returns, raises.
  rewrite (Execute_load_read p keys content Hfile), Hyaml.
  cbv beta iota zeta.
  set (q := set_world (Step_load keys _ _).2 (set_execute _ p)).
  destruct e;
    [exists (set_world (emit (Debug "Test results not found." 2) (world q)) q)
    |exists q..];
    repeat split; try done; intros He; by destruct He.
Qed.

(** *** The dictionary that [save] builds *)

Lemma setitem_keys {V} (k : string) (v : V) (d : list (string * V)) :
  fst <$> Py.setitem k v d =
    if bool_decide (k ∈ fst <$> d) then fst <$> d
    else ((fst <$> d) ++ [k])%list.
Proof.
  induction d as [|[k' v'] d IH].
  - done.
  - cbn [Py.setitem].
    destruct (bool_decide_reflect (k' = k)) as [->|Hne].
    + rewrite !fmap_cons. cbn [fst].
      by rewrite bool_decide_true by apply list_elem_of_here.
    + rewrite !fmap_cons, IH. cbn [fst].
      destruct (bool_decide_reflect (k ∈ fst <$> d)) as [Hin|Hin].
      * by rewrite bool_decide_true by (by apply list_elem_of_further).
      * rewrite bool_decide_false; [done|].
        intros [?|?]%elem_of_cons; by subst.
Qed.

Lemma setitem_elem {V} (k : string) (v : V) (d : list (string * V)) k' v' :
  NoDup (fst <$> d) ->
  (k', v') ∈ Py.setitem k v d <->
  (k' = k /\ v' = v) \/ (k' <> k /\ (k', v') ∈ d).
Proof.
  induction d as [|[k0 v0] d IH]; simpl; intros Hnd.
  - rewrite list_elem_of_singleton. split.
    + intros [= -> ->]. by left.
    + intros [[-> ->]|[_ Hin]]; [done|]. by apply not_elem_of_nil in Hin.
  - apply NoDup_cons in Hnd as [Hk0 Hnd].
    destruct (bool_decide_reflect (k0 = k)) as [->|Hne].
    + rewrite !elem_of_cons. split.
      * intros [[= -> ->]|Hin]; [by left|]. right. split; [|by right].
        intros ->. apply Hk0. apply list_elem_of_fmap. by exists (k, v').
      * intros [[-> ->]|[Hne [[= -> ->]|Hin]]]; [by left|done|by right].
    + rewrite elem_of_cons, IH by done. rewrite elem_of_cons. split.
      * intros [[= -> ->]|[[-> ->]|[Hk Hin]]];
          [right; split; [done|by left]|by left|right; split; [done|by right]].
      * intros [[-> ->]|[Hk [[= -> ->]|Hin]]];
          [right; by left|by left|right; right; by split].
Qed.

Lemma dict_of_snoc {V} (pairs : list (string * V)) (k : string) (v : V) :
  Py.dict_of (pairs ++ [(k, v)]) = Py.setitem k v (Py.dict_of pairs).
Proof. unfold Py.dict_of. by rewrite foldl_app. Qed.

(** A dictionary built from pairs: every key once, in the order of the
    first occurrences, with the value of the last occurrence. *)
Lemma dict_of_spec {V} (pairs : list (string * V)) :
  NoDup (fst <$> Py.dict_of pairs) /\
  fst <$> Py.dict_of pairs = reverse (remove_dups (reverse (fst <$> pairs))) /\
  forall k v,
    (k, v) ∈ Py.dict_of pairs <->
    exists before after,
      pairs = (before ++ (k, v) :: after)%list /\ k ∉ fst <$> after.
Proof.
  induction pairs as [|[k v] pairs (Hnd & Hkeys & Hlast)] using rev_ind.
  - split; [constructor|]. split; [done|].
    intros k v. split; [by intros ?%not_elem_of_nil|].
    intros (before & after & Heq & _). by destruct before.
  - rewrite dict_of_snoc, setitem_keys. split; [|split].
    + case_bool_decide; [done|].
      apply NoDup_app. split; [done|]. split; [|apply NoDup_singleton].
      intros x Hx ->%list_elem_of_singleton. done.
    + rewrite fmap_snoc, reverse_snoc. cbn [remove_dups fst].
      rewrite Hkeys.
      destruct (decide_rel elem_of k (reverse (fst <$> pairs))) as [Hin|Hin].
      * rewrite bool_decide_true; [done|].
        by rewrite elem_of_reverse, elem_of_remove_dups.
      * rewrite bool_decide_false; [by rewrite reverse_cons|].
        by rewrite elem_of_reverse, elem_of_remove_dups.
    + intros k' v'. rewrite setitem_elem by done. split.
      * intros [[-> ->]|[Hne Hin]].
        -- exists pairs, []. split; [done|]. apply not_elem_of_nil.
        -- apply Hlast in Hin as (before & after & -> & Hafter).
           exists before, (after ++ [(k, v)])%list.
           split; [by rewrite <-app_assoc|].
           rewrite fmap_app. intros [?|Hk]%elem_of_app; [done|].
           apply list_elem_of_singleton in Hk. done.
      * intros (before & after & Heq & Hafter).
        destruct after as [|a after _] using rev_ind.
        -- apply app_inj_tail in Heq as [_ [= <- <-]]. by left.
        -- rewrite app_comm_cons, app_assoc in Heq.
           apply app_inj_tail in Heq as [-> <-].
           rewrite fmap_app in Hafter.
           apply not_elem_of_app in Hafter as [Hafter Hk].
           right. split.
           ++ intros ->. apply Hk. apply list_elem_of_here.
           ++ apply Hlast. by exists before, after.
Qed.

(** X8: the dictionary that [save] serializes has every test name
    once, in the order in which the names first occur among the
    results, each with the record of the last result of that name: of
    several results with one name, as several guests running one test
    give, only the last is saved. *)
Theorem results_store_one_per_name (e : Execute Ext) :
  NoDup (fst <$> results_store e) /\
  fst <$> results_store e
    = reverse (remove_dups (reverse (res_name <$> Execute_results e))) /\
  forall (tname : string) (record : Dict),
    (tname, record) ∈ results_store e <->
    exists before r after,
      Execute_results e = (before ++ r :: after)%list /\
      res_name r = tname /\ export r = record /\
      tname ∉ res_name <$> after.
Proof.
  unfold results_store.
  destruct (dict_of_spec ((fun r => (res_name r, export r))
                            <$> Execute_results e)) as (Hnd & Hkeys & Hlast).
  split; [done|]. split.
  - rewrite Hkeys, <-list_fmap_compose. done.
  - intros tname record. rewrite Hlast. split.
    + intros (before & after & Heq & Hafter).
      apply fmap_app_inv in Heq as (rb & ra' & -> & Hra & ->).
      symmetry in Hra.
      apply fmap_cons_inv in Hra as (r & ra & [= -> ->] & -> & ->).
      exists rb, r, ra. rewrite <-list_fmap_compose in Hafter. done.
    + intros (before & r & after & -> & <- & <- & Hafter).
      exists ((fun r => (res_name r, export r)) <$> before),
             ((fun r => (res_name r, export r)) <$> after).
      split; [by rewrite fmap_app, fmap_cons|].
      by rewrite <-list_fmap_compose.
Qed.

Lemma results_of_store_names (store : list (string * Dict)) :
  res_name <$> results_of_store store = fst <$> store.
Proof.
  unfold results_of_store. rewrite <-list_fmap_compose.
  apply list_fmap_ext. by intros i [n d] _.
Qed.

(** X9: without any condition on the names, a [load] that finds the
    files as [save] left them holds one result for each name that the
    saved results had, with the record of the last result of that name;
    [save] itself changes neither the steps nor the calls.  The YAML
    functions give back the dictionary they serialized and the
    inherited [load] only reads. *)
Theorem load_after_save p (d : Dict) (keys : list string) :
  load_only_reads ->
  yaml_to_dict (dict_to_yaml (results_store (execute p)))
    = inr (results_store (execute p)) ->
  exists p1,
    returns (Execute_save d) p tt p1 /\
    execute p1 = execute p /\ report p1 = report p /\ calls p1 = calls p /\
    forall q,
      files (world q) = files (world p1) ->
      workdir (step (execute q)) = workdir (step (execute p)) ->
      exists p2,
        returns (Execute_load keys) q tt p2 /\
        Execute_results (execute p2)
          = results_of_store (results_store (execute p)) /\
        NoDup (res_name <$> Execute_results (execute p2)) /\
        forall tname,
          tname ∈ res_name <$> Execute_results (execute p2) <->
          tname ∈ res_name <$> Execute_results (execute p).
Proof.
  intros Hload Hyaml.
  eexists. split; [apply Execute_save_run|]. simpl.
  split; [done|]. split; [done|]. split; [done|].
  intros q Hfiles Hwd.
  destruct (Hload keys (step (execute q)) (world q)) as [Hf Hw].
  destruct (Execute_load_found q keys
              (dict_to_yaml (results_store (execute p)))
              (results_store (execute p))) as (p2 & Hret & Hres).
  - rewrite Hf, Hfiles. unfold results_yaml. rewrite Hw, Hwd. simpl.
    apply lookup_insert_eq.
  - done.
  - exists p2. split; [done|]. split; [done|].
    fold (results_of_store (results_store (execute p))) in Hres.
    rewrite Hres, results_of_store_names.
    destruct (results_store_one_per_name (execute p)) as (Hnd & Hkeys & _).
    split; [done|]. intros tname.
    by rewrite Hkeys, elem_of_reverse, elem_of_remove_dups, elem_of_reverse.
Qed.

(** ** [Execute.go] *)

Lemma Execute_go_started p :
  status (step (execute p)) <> Some "done" ->
  guests p <> [] ->
  Execute_go p =
    (for_each (guests p) Execute_go_guest ;;
     Execute_summary ;;
     modify (set_execute (set_step (set_status (Some "done")))) ;;
     Execute_save ∅)
      (set_world (Step_go (step (execute p)) (world p)) p).
Proof.
  intros Hstatus Hguests. unfold Execute_go, is_done.
  unfold mbind at 1, M_bind at 1, get at 1. cbv beta iota zeta.
  rewrite bool_decide_false by done.
  rewrite bool_decide_false by done.
  unfold mbind at 1, M_bind at 1, in_world at 1, zoom at 1, modify at 1.
  cbv beta iota zeta. done.
Qed.

Lemma Execute_go_finish q :
  (Execute_summary ;;
   modify (set_execute (set_step (set_status (Some "done")))) ;;
   Execute_save ∅) q =
  (inr tt,
   set_world
     (set_files
        (<[results_yaml (step (execute q)) :=
             dict_to_yaml (results_store (execute q))]>)
        (Step_save ∅ (set_status (Some "done") (step (execute q)))
           (emit (Execute_summary_line (execute q)) (world q))))
     (set_execute (set_step (set_status (Some "done"))) q)).
Proof.
  unfold Execute_summary, Execute_save.
  unfold mbind, M_bind, get, in_world, zoom, info, write, modify. simpl.
  done.
Qed.

(** X10: a [go] of the execute step that runs all its phases prints the
    summary line with the number of all results, then saves: the
    inherited [save] sees the status [done], and the file of the
    results holds the results in memory, those from before included. *)
Theorem go_saves_results p :
  status (step (execute p)) <> Some "done" ->
  guests p <> [] ->
  phases_return (step (execute p)) ->
  exists p',
    returns Execute_go p tt p' /\
    results_file_of p' = Some (dict_to_yaml (results_store (execute p'))) /\
    world p' =
      set_files
        (<[results_yaml (step (execute p)) :=
             dict_to_yaml (results_store (execute p'))]>)
        (Step_save ∅ (step (execute p'))
           (emit (Execute_summary_line (execute p'))
              (gathered (invocations (guests p) (_phases (step (execute p))))
                 (Step_go (step (execute p)) (world p))).2)).
Proof.
  intros Hstatus Hguests Hret. unfold returns.
  rewrite Execute_go_started by done.
  set (p0 := set_world (Step_go (step (execute p)) (world p)) p).
  unfold mbind at 1, M_bind at 1.
  rewrite (for_each_guests (guests p) p0) by done.
  change (invocations (guests p) (_phases (step (execute p0))))
    with (invocations (guests p) (_phases (step (execute p)))).
  set (gps := invocations (guests p) (_phases (step (execute p)))).
  destruct (run_invocations gps p0)
    as (Hc & Hr & Hw & Hs & Hg & Hrep & Hn & Hm).
  rewrite Execute_go_finish.
  eexists. split; [reflexivity|].
  unfold results_file_of, results_yaml, results_store, Execute_summary_line,
    Execute_results. simpl.
  rewrite Hs, Hw. split; [apply lookup_insert_eq|done].
Qed.

(** *** A phase that raises *)

Lemma Execute_go_phase_until (g : Guest) (ph : Phase Ext) p :
  Execute_go_phase g ph p =
    if ph_enabled_on_guest ph g then run_until_raise [(g, ph)] p
    else (inr tt, p).
Proof.
  unfold Execute_go_phase, run_until_raise, run_phase.
  destruct (ph_enabled_on_guest ph g); [|done].
  unfold mbind, M_bind, modify, in_world, zoom, get. simpl.
  destruct (ph_go ph (Some g) (world p)) as [[e|[]] w'] eqn:E; simpl; [done|].
  by destruct (bool_decide (ph_class ph = ExecutePluginClass)).
Qed.

Lemma run_until_raise_app (gps gps' : list (Guest * Phase Ext)) p :
  run_until_raise (gps ++ gps') p =
    match run_until_raise gps p with
    | (inl e, q) => (inl e, q)
    | (inr _, q) => run_until_raise gps' q
    end.
Proof.
  revert p; induction gps as [|gp gps IH]; intros p; simpl; [done|].
  destruct (ph_go gp.2 (Some gp.1) (world p)) as [[e|[]] w']; [done|].
  apply IH.
Qed.

Lemma run_phase_step p (gp : Guest * Phase Ext) :
  step (execute (run_phase p gp)) = step (execute p).
Proof.
  unfold run_phase.
  by destruct (bool_decide (ph_class gp.2 = ExecutePluginClass)).
Qed.

Lemma run_until_raise_step (gps : list (Guest * Phase Ext)) p :
  step (execute (run_until_raise gps p).2) = step (execute p).
Proof.
  revert p; induction gps as [|gp gps IH]; intros p; simpl; [done|].
  destruct (ph_go gp.2 (Some gp.1) (world p)) as [[e|[]] w']; [done|].
  by rewrite IH, run_phase_step.
Qed.

Lemma for_each_phases_until (g : Guest) (ps : list (Phase Ext)) p :
  for_each ps (Execute_go_phase g) p =
    run_until_raise
      ((fun ph => (g, ph)) <$> filter (fun ph => ph_enabled_on_guest ph g) ps) p.
Proof.
  revert p; induction ps as [|ph ps IH]; intros p; [done|].
  cbn [for_each]. unfold mbind, M_bind.
  rewrite Execute_go_phase_until, filter_cons.
  destruct (ph_enabled_on_guest ph g); simpl.
  - destruct (ph_go ph (Some g) (world p)) as [[e|[]] w']; [done|].
    apply IH.
  - apply IH.
Qed.

Lemma for_each_guests_until (gs : list Guest) p :
  for_each gs Execute_go_guest p =
    run_until_raise (invocations gs (_phases (step (execute p)))) p.
Proof.
  revert p; induction gs as [|g gs IH]; intros p; [done|].
  cbn [for_each]. unfold mbind at 1, M_bind at 1.
  unfold Execute_go_guest at 1, mbind at 1, M_bind at 1, get at 1.
  cbv beta iota zeta. cbn [phases].
  rewrite for_each_phases_until.
  unfold invocations. cbn [mbind list_bind]. rewrite run_until_raise_app.
  set (here := (fun ph => (g, ph)) <$> _).
  pose proof (run_until_raise_step here p) as Hstep.
  destruct (run_until_raise here p) as [[e|[]] q]; [done|].
  simpl in Hstep. rewrite IH, Hstep. done.
Qed.

Lemma run_until_raise_returns (gps : list (Guest * Phase Ext)) p :
  (forall gp w, gp ∈ gps -> (ph_go gp.2 (Some gp.1) w).1 = inr tt) ->
  run_until_raise gps p = (inr tt, foldl run_phase p gps).
Proof.
  revert p; induction gps as [|gp gps IH]; intros p Hret; simpl; [done|].
  pose proof (Hret gp (world p) (list_elem_of_here _ _)) as Hgo.
  destruct (ph_go gp.2 (Some gp.1) (world p)) as [[e|[]] w']; [done|].
  apply IH. intros gp' w Hin. apply Hret. by apply list_elem_of_further.
Qed.

(** X11: when a phase raises in [go], the exception leaves [go] at
    once.  The phases have run up to and including the one that
    raised, and nothing after it; the results of the invocations that
    returned are in memory, those of the raising one are not taken.
    The status is as before, so not [done], and the step prints and
    saves nothing: the world is as the raising phase left it. *)
Theorem go_stops_at_first_raise p (before after : list (Guest * Phase Ext))
  (gp : Guest * Phase Ext) (e : exn) :
  status (step (execute p)) <> Some "done" ->
  guests p <> [] ->
  invocations (guests p) (_phases (step (execute p)))
    = (before ++ gp :: after)%list ->
  (forall gp' w, gp' ∈ before -> (ph_go gp'.2 (Some gp'.1) w).1 = inr tt) ->
  (ph_go gp.2 (Some gp.1)
     (gathered before (Step_go (step (execute p)) (world p))).2).1 = inl e ->
  exists p',
    raises Execute_go p e p' /\
    calls p' =
      (calls p ++ ((fun gp => CallPhaseGo gp.2 (Some gp.1))
                     <$> (before ++ [gp])))%list /\
    Execute_results (execute p') =
      (Execute_results (execute p) ++
       concat (gathered before (Step_go (step (execute p)) (world p))).1)%list
    /\
    status (step (execute p')) = status (step (execute p)) /\
    world p' =
      (ph_go gp.2 (Some gp.1)
         (gathered before (Step_go (step (execute p)) (world p))).2).2.
Proof.
  intros Hstatus Hguests Hinv Hret Hraise. unfold raises.
  rewrite Execute_go_started by done.
  set (p0 := set_world (Step_go (step (execute p)) (world p)) p).
  unfold mbind at 1, M_bind at 1.
  rewrite for_each_guests_until.
  change (_phases (step (execute p0))) with (_phases (step (execute p))).
  rewrite Hinv, run_until_raise_app, run_until_raise_returns by done.
  destruct (run_invocations before p0)
    as (Hc & Hr & Hw & Hs & Hg & Hrep & Hn & Hm).
  cbn [run_until_raise]. cbn [world record_call].
  rewrite Hw. change (world p0) with (Step_go (step (execute p)) (world p)).
  destruct (ph_go gp.2 (Some gp.1) _) as [[e'|[]] w'] eqn:E;
    simpl in Hraise; [|done].
  injection Hraise as ->.
  eexists. split; [reflexivity|]. simpl.
  unfold Execute_results, status. rewrite Hc, Hr, Hs.
  rewrite fmap_app, app_assoc. done.
Qed.

(** ** [Report.go] *)

Lemma Report_go_started p :
  status (rstep (report p)) <> Some "done" ->
  Report_go p =
    (for_each (phases None (rstep (report p))) (fun phase =>
       modify (record_call (CallPhaseGo phase None)) ;;
       in_world (ph_go phase None)) ;;
     Report_summary ;;
     modify (set_report (fun r =>
       {| rstep := set_status (Some "done") (rstep r) |})) ;;
     p ← get;
     in_world (modify (Step_save ∅ (rstep (report p)))))
      (set_world (Step_go (rstep (report p)) (world p)) p).
Proof.
  intros Hstatus. unfold Report_go, is_done.
  unfold mbind at 1, M_bind at 1, get at 1. cbv beta iota zeta.
  rewrite bool_decide_false by done.
  unfold mbind at 1, M_bind at 1, in_world at 1, zoom at 1, modify at 1.
  cbv beta iota zeta. done.
Qed.

Lemma run_report_phases (ps : list (Phase Ext)) p :
  calls (foldl run_report_phase p ps)
    = (calls p ++ ((fun ph => CallPhaseGo ph None) <$> ps))%list /\
  world (foldl run_report_phase p ps) = after_report_phases ps (world p) /\
  execute (foldl run_report_phase p ps) = execute p /\
  report (foldl run_report_phase p ps) = report p.
Proof.
  revert p; induction ps as [|ph ps IH]; intros p; simpl.
  - by rewrite app_nil_r.
  - destruct (IH (run_report_phase p ph)) as (Hc & Hw & He & Hr).
    rewrite Hc, Hw, He, Hr. simpl. by rewrite <-app_assoc.
Qed.

Lemma for_each_report_phases (ps : list (Phase Ext)) p :
  (forall ph w, ph ∈ ps -> (ph_go ph None w).1 = inr tt) ->
  for_each ps (fun phase =>
    modify (record_call (CallPhaseGo phase None)) ;;
    in_world (ph_go phase None)) p
  = (inr tt, foldl run_report_phase p ps).
Proof.
  revert p; induction ps as [|ph ps IH]; intros p Hret; [done|].
  cbn [for_each]. unfold mbind at 1, M_bind at 1.
  unfold mbind at 1, M_bind at 1, modify at 1, in_world at 1, zoom at 1.
  cbv beta iota zeta. cbn [world record_call].
  pose proof (Hret ph (world p) (list_elem_of_here _ _)) as Hgo.
  destruct (ph_go ph None (world p)) as [[e|[]] w'] eqn:E; [done|].
  assert (Hrun : run_report_phase p ph
                 = set_world w' (record_call (CallPhaseGo ph None) p)).
  { unfold run_report_phase. cbn [world record_call]. by rewrite E. }
  rewrite IH by (intros; by apply Hret, list_elem_of_further).
  cbn [foldl]. by rewrite Hrun.
Qed.

(** X12: on a report step that is not done and whose phases return,
    [go] returns.  It has run every phase of the step once, in order
    and without a guest, whatever the class of the phase; it has then
    printed the summary of the results of the execute step, set the
    status to [done] and called the inherited [save].  The execute step
    is untouched. *)
Theorem report_go_runs_all p :
  status (rstep (report p)) <> Some "done" ->
  (forall ph w, ph ∈ _phases (rstep (report p)) ->
                (ph_go ph None w).1 = inr tt) ->
  exists p',
    returns Report_go p tt p' /\
    calls p' =
      (calls p ++ ((fun ph => CallPhaseGo ph None)
                     <$> _phases (rstep (report p))))%list /\
    status (rstep (report p')) = Some "done" /\
    execute p' = execute p /\
    world p' =
      Step_save ∅ (rstep (report p'))
        (emit (Report_summary_line (execute p))
           (after_report_phases (_phases (rstep (report p)))
              (Step_go (rstep (report p)) (world p)))).
Proof.
  intros Hstatus Hret. unfold returns.
  rewrite Report_go_started by done.
  set (p0 := set_world (Step_go (rstep (report p)) (world p)) p).
  unfold mbind at 1, M_bind at 1. cbn [phases].
  rewrite for_each_report_phases by done.
  destruct (run_report_phases (_phases (rstep (report p))) p0)
    as (Hc & Hw & He & Hr).
  unfold Report_summary.
  unfold mbind, M_bind, get, in_world, zoom, info, modify.
  cbv beta iota zeta. simpl.
  eexists. split; [reflexivity|]. simpl.
  rewrite Hc, Hw, He, Hr. done.
Qed.

(** X13: when a report phase raises, the exception leaves [go] at once:
    the later phases do not run, no summary is printed, nothing is
    saved and the status is as before. *)
Theorem report_go_stops_at_first_raise p (before after : list (Phase Ext))
  (ph : Phase Ext) (e : exn) :
  status (rstep (report p)) <> Some "done" ->
  _phases (rstep (report p)) = (before ++ ph :: after)%list ->
  (forall ph' w, ph' ∈ before -> (ph_go ph' None w).1 = inr tt) ->
  (ph_go ph None
     (after_report_phases before (Step_go (rstep (report p)) (world p)))).1
    = inl e ->
  exists p',
    raises Report_go p e p' /\
    calls p' =
      (calls p ++ ((fun ph => CallPhaseGo ph None) <$> (before ++ [ph])))%list
    /\
    report p' = report p /\
    execute p' = execute p /\
    world p' =
      (ph_go ph None
         (after_report_phases before
            (Step_go (rstep (report p)) (world p)))).2.
Proof.
  intros Hstatus Hphases Hret Hraise. unfold raises.
  rewrite Report_go_started by done.
  set (p0 := set_world (Step_go (rstep (report p)) (world p)) p).
  unfold mbind at 1, M_bind at 1. cbn [phases]. rewrite Hphases.
  assert (Hloop : forall (l : list (Phase Ext)) q,
    (forall ph' w, ph' ∈ l -> (ph_go ph' None w).1 = inr tt) ->
    for_each (l ++ ph :: after) (fun phase =>
      modify (record_call (CallPhaseGo phase None)) ;;
      in_world (ph_go phase None)) q
    = match ph_go ph None (world (foldl run_report_phase q l)) with
      | (inl e', w') =>
          (inl e', set_world w' (record_call (CallPhaseGo ph None)
                                   (foldl run_report_phase q l)))
      | (inr _, w') =>
          for_each after (fun phase =>
            modify (record_call (CallPhaseGo phase None)) ;;
            in_world (ph_go phase None))
            (run_report_phase (foldl run_report_phase q l) ph)
      end).
  { induction l as [|ph' l IH]; intros q Hl.
    - cbn [app for_each foldl]. unfold mbind at 1, M_bind at 1.
      unfold mbind at 1, M_bind at 1, modify at 1, in_world at 1, zoom at 1.
      cbv beta iota zeta. cbn [world record_call].
      unfold run_report_phase. cbn [world record_call].
      by destruct (ph_go ph None (world q)) as [[e'|[]] w'].
    - cbn [app for_each foldl]. unfold mbind at 1, M_bind at 1.
      unfold mbind at 1, M_bind at 1, modify at 1, in_world at 1, zoom at 1.
      cbv beta iota zeta. cbn [world record_call].
      pose proof (Hl ph' (world q) (list_elem_of_here _ _)) as Hgo.
      destruct (ph_go ph' None (world q)) as [[e'|[]] w'] eqn:E; [done|].
      assert (Hrun : run_report_phase q ph'
                     = set_world w' (record_call (CallPhaseGo ph' None) q)).
      { unfold run_report_phase. cbn [world record_call]. by rewrite E. }
      rewrite IH by (intros; by apply Hl, list_elem_of_further).
      by rewrite Hrun. }
  rewrite Hloop by done.
  destruct (run_report_phases before p0) as (Hc & Hw & He & Hr).
  rewrite Hw. change (world p0) with (Step_go (rstep (report p)) (world p)).
  destruct (ph_go ph None _) as [[e'|[]] w'] eqn:E; simpl in Hraise; [|done].
  injection Hraise as ->.
  eexists. split; [reflexivity|]. simpl.
  rewrite Hc, He, Hr, fmap_app, app_assoc. done.
Qed.

(** ** [Report.wake] *)

Section ReportWake.

Variable Report_Step_wake : Report Ext -> World Ext -> Report Ext * World Ext.
Variable ReportPlugin_delegate : StepCore Ext -> Dict -> exn + Phase Ext.

Lemma wake_records (dps : list (Dict * Phase Ext)) p :
  calls (foldl wake_record p dps)
    = (calls p ++ (dp ← dps; [CallDelegate dp.1; CallPhaseWake dp.2]))%list /\
  _phases (rstep (report (foldl wake_record p dps)))
    = (_phases (rstep (report p)) ++ (snd <$> dps))%list /\
  world (foldl wake_record p dps) = after_wakes (snd <$> dps) (world p) /\
  status (rstep (report (foldl wake_record p dps)))
    = status (rstep (report p)) /\
  data (rstep (report (foldl wake_record p dps))) = data (rstep (report p)) /\
  workdir (rstep (report (foldl wake_record p dps)))
    = workdir (rstep (report p)) /\
  execute (foldl wake_record p dps) = execute p.
Proof.
  revert p; induction dps as [|dp dps IH]; intros p; simpl.
  - by rewrite !app_nil_r.
  - destruct (IH (wake_record p dp)) as (Hc & Hp & Hw & Hs & Hd & Hwd & He).
    rewrite Hc, Hp, Hw, Hs, Hd, Hwd, He. simpl.
    by rewrite <-!app_assoc.
Qed.

Lemma resolved_calls (resolve : Dict -> Phase Ext) (ds : list Dict) :
  (dp ← (fun d => (d, resolve d)) <$> ds;
   [CallDelegate dp.1; CallPhaseWake dp.2])
  = (d ← ds; [CallDelegate d; CallPhaseWake (resolve d)]).
Proof. induction ds as [|d ds IH]; [done|]. simpl. by f_equal; f_equal. Qed.

Lemma Report_wake_record_run (d : Dict) p :
  Report_wake_record ReportPlugin_delegate d p =
    match ReportPlugin_delegate (rstep (report p)) d with
    | inl e => (inl e, record_call (CallDelegate d) p)
    | inr plugin => (inr tt, wake_record p (d, plugin))
    end.
Proof.
  unfold Report_wake_record, wake_record.
  unfold mbind, M_bind, get, modify, in_world, zoom, raise_or_return.
  cbv beta iota zeta. simpl.
  by destruct (ReportPlugin_delegate (rstep (report p)) d).
Qed.

Lemma for_each_records (resolve : Dict -> Phase Ext) (ds : list Dict) p :
  (forall c d, d ∈ ds -> ReportPlugin_delegate c d = inr (resolve d)) ->
  for_each ds (Report_wake_record ReportPlugin_delegate) p
  = (inr tt, foldl wake_record p ((fun d => (d, resolve d)) <$> ds)).
Proof.
  revert p; induction ds as [|d ds IH]; intros p Hres; [done|].
  cbn [for_each]. unfold mbind at 1, M_bind at 1.
  rewrite Report_wake_record_run, Hres by apply list_elem_of_here.
  rewrite IH by (intros; by apply Hres, list_elem_of_further). done.
Qed.

(** X14: [wake] of the report step resolves one plugin for each
    configuration record that the inherited [wake] left, any number of
    them, in the order of the records: each plugin is resolved, woken
    and added after the phases of the step before the next record is
    looked at.  A step that is done stays done and is not saved; any
    other becomes [todo] and the inherited [save] is called.  The
    execute step is untouched. *)
Theorem report_wake_resolves_every_record p (resolve : Dict -> Phase Ext) :
  (forall c d, d ∈ data (rstep (report_woken Report_Step_wake p).1) ->
               ReportPlugin_delegate c d = inr (resolve d)) ->
  exists p',
    returns (Report_wake Report_Step_wake ReportPlugin_delegate) p tt p' /\
    _phases (rstep (report p')) =
      (_phases (rstep (report_woken Report_Step_wake p).1) ++
       (resolve <$> data (rstep (report_woken Report_Step_wake p).1)))%list /\
    calls p' =
      (calls p ++
       (d ← data (rstep (report_woken Report_Step_wake p).1);
        [CallDelegate d; CallPhaseWake (resolve d)]))%list /\
    execute p' = execute p /\
    (status (rstep (report_woken Report_Step_wake p).1) = Some "done" ->
     status (rstep (report p')) = Some "done" /\
     world p' =
       emit (Debug "Report wake up complete (already done before)." 2)
         (after_wakes
            (resolve <$> data (rstep (report_woken Report_Step_wake p).1))
            (report_woken Report_Step_wake p).2)) /\
    (status (rstep (report_woken Report_Step_wake p).1) <> Some "done" ->
     status (rstep (report p')) = Some "todo" /\
     world p' =
       Step_save ∅ (rstep (report p'))
         (after_wakes
            (resolve <$> data (rstep (report_woken Report_Step_wake p).1))
            (report_woken Report_Step_wake p).2)).
Proof.
  intros Hres. unfold returns, Report_wake.
  unfold mbind at 1, M_bind at 1, modify at 1. cbv beta iota zeta.
  unfold mbind at 1, M_bind at 1, get at 1. cbv beta iota zeta.
  fold (report_woken Report_Step_wake p).
  set (woken := report_woken Report_Step_wake p) in *.
  set (p0 := set_world woken.2 (set_report (fun _ => woken.1) p)).
  change (data (rstep (report p0))) with (data (rstep woken.1)).
  unfold mbind at 1, M_bind at 1.
  rewrite (for_each_records resolve) by done.
  set (dps := (fun d => (d, resolve d)) <$> data (rstep woken.1)).
  destruct (wake_records dps p0) as (Hc & Hp & Hw & Hs & Hd & Hwd & He).
  assert (Hsnd : snd <$> dps = resolve <$> data (rstep woken.1)).
  { unfold dps. by rewrite <-list_fmap_compose. }
  rewrite Hsnd in Hp, Hw. subst dps. rewrite resolved_calls in Hc.
  unfold mbind at 1, M_bind at 1, get at 1. cbv beta iota zeta.
  unfold is_done. rewrite Hs.
  change (status (rstep (report p0))) with (status (rstep woken.1)).
  destruct (bool_decide_reflect (status (rstep woken.1) = Some "done"))
    as [Hdone|Hdone].
  - eexists. split; [reflexivity|]. simpl.
    rewrite Hp, Hc, Hw, He. unfold status in *. rewrite Hs.
    repeat split; done.
  - unfold mbind, M_bind, get, modify, in_world, zoom. cbv beta iota zeta.
    eexists. split; [reflexivity|]. simpl.
    rewrite Hp, Hc, Hw, He. repeat split; done.
Qed.

(** X15: when the plugin of a configuration record cannot be resolved,
    [wake] of the report step raises the error of the resolution and
    stops half way: the plugins of the earlier records are woken and
    stay among the phases, the later records are not looked at, the
    status is unchanged and nothing is saved. *)
Theorem report_wake_unresolved p (resolve : Dict -> Phase Ext)
  (before after : list Dict) (d : Dict) (e : exn) :
  data (rstep (report_woken Report_Step_wake p).1)
    = (before ++ d :: after)%list ->
  (forall c d', d' ∈ before -> ReportPlugin_delegate c d' = inr (resolve d')) ->
  (forall c, ReportPlugin_delegate c d = inl e) ->
  exists p',
    raises (Report_wake Report_Step_wake ReportPlugin_delegate) p e p' /\
    _phases (rstep (report p')) =
      (_phases (rstep (report_woken Report_Step_wake p).1) ++
       (resolve <$> before))%list /\
    calls p' =
      (calls p ++
       (d' ← before; [CallDelegate d'; CallPhaseWake (resolve d')]) ++
       [CallDelegate d])%list /\
    status (rstep (report p'))
      = status (rstep (report_woken Report_Step_wake p).1) /\
    execute p' = execute p /\
    world p' = after_wakes (resolve <$> before)
                 (report_woken Report_Step_wake p).2.
Proof.
  intros Hdata Hres Hfail. unfold raises, Report_wake.
  unfold mbind at 1, M_bind at 1, modify at 1. cbv beta iota zeta.
  unfold mbind at 1, M_bind at 1, get at 1. cbv beta iota zeta.
  fold (report_woken Report_Step_wake p).
  set (woken := report_woken Report_Step_wake p) in *.
  set (p0 := set_world woken.2 (set_report (fun _ => woken.1) p)).
  change (data (rstep (report p0))) with (data (rstep woken.1)).
  rewrite Hdata.
  assert (Hloop : forall (l : list Dict) q,
    (forall c d', d' ∈ l -> ReportPlugin_delegate c d' = inr (resolve d')) ->
    for_each (l ++ d :: after) (Report_wake_record ReportPlugin_delegate) q
    = (inl e, record_call (CallDelegate d)
                (foldl wake_record q ((fun d => (d, resolve d)) <$> l)))).
  { induction l as [|d' l IH]; intros q Hl.
    - cbn [app for_each]. unfold mbind at 1, M_bind at 1.
      by rewrite Report_wake_record_run, Hfail.
    - cbn [app for_each]. unfold mbind at 1, M_bind at 1.
      rewrite Report_wake_record_run, Hl by apply list_elem_of_here.
      rewrite IH by (intros; by apply Hl, list_elem_of_further). done. }
  unfold mbind at 1, M_bind at 1. rewrite Hloop by done.
  set (dps := (fun d => (d, resolve d)) <$> before).
  destruct (wake_records dps p0) as (Hc & Hp & Hw & Hs & Hd & Hwd & He).
  assert (Hsnd : snd <$> dps = resolve <$> before).
  { unfold dps. by rewrite <-list_fmap_compose. }
  rewrite Hsnd in Hp, Hw. subst dps. rewrite resolved_calls in Hc.
  eexists. split; [reflexivity|]. simpl.
  rewrite Hp, Hc, Hw, He, Hs, <-app_assoc. done.
Qed.

End ReportWake.

(** ** [ExecutePlugin.data_path] *)






(** ** The logs and the duration of a result *)

(** X17: whatever its outcome, the result of [check_beakerlib] carries
    the duration that the test took and, as its logs, those of
    [output.txt] and [journal.txt], in this order, that are files when
    the check starts, by their paths relative to the working directory.
    The result of [check_shell] carries the duration and always names
    [output.txt] as its one log, whether the file exists or not. *)
Theorem results_carry_logs (wd : string) test w :
  (exists res w',
     returns (check_beakerlib wd test) w res w' /\
     log res =
       Some (VList ((fun l => data_path wd test (Some l) false)
                      <$> filter (fun l =>
                            isfile (data_path wd test (Some l) true) w)
                            [TEST_OUTPUT_FILENAME; "journal.txt"])) /\
     res_duration res = Some (VStr (real_duration test))) /\
  (exists res w',
     returns (check_shell wd test) w res w' /\
     log res =
       Some (VStr (data_path wd test (Some TEST_OUTPUT_FILENAME) false)) /\
     res_duration res = Some (VStr (real_duration test))).
Proof.
  split.
  - unfold returns, check_beakerlib.
    set (f := Py.path_join wd (data_path wd test (Some "TestResults") true)).
    unfold mbind, M_bind, try_except, read, get, mret, M_ret, debug, modify.
    fold f. cbv beta iota zeta.
    destruct (files w !! f) as [blob|]; cbv beta iota zeta.
    + destruct (Py.re_search Py.result_string_at blob) as [result|];
        [destruct (Py.re_search Py.state_at blob) as [state|]|].
      * destruct (bool_decide (returncode test = PROCESS_TIMEOUT));
          [|destruct (bool_decide (state <> "complete"))];
          (eexists _, _; split; [reflexivity|]);
          unfold log, res_duration; simpl; split; by simplify_map_eq.
      * eexists _, _; split; [reflexivity|].
        unfold log, res_duration; simpl; split; by simplify_map_eq.
      * eexists _, _; split; [reflexivity|].
        unfold log, res_duration; simpl; split; by simplify_map_eq.
    + eexists _, _; split; [reflexivity|].
      unfold log, res_duration; simpl; split; by simplify_map_eq.
  - unfold returns, check_shell.
    destruct (shell_results !! returncode test) as [r|];
      [|destruct (bool_decide (returncode test = PROCESS_TIMEOUT))];
      (eexists _, _; split; [reflexivity|]);
      unfold log, res_duration; simpl; split; by simplify_map_eq.
Qed.

(** ** [ExecutePlugin.prepare_scripts] *)

Section PrepareScripts.

Variable SCRIPTS_SRC_DIR : string.

Lemma has_slash_basename (s : string) : has_slash (basename s) = false.
Proof.
  induction s as [|c s IH]; [done|]. cbn [basename].
  destruct (Ascii.eqb c Py.SLASH || has_slash s) eqn:E; [done|].
  cbn [has_slash]. done.
Qed.

Lemma basename_plain (f : string) : has_slash f = false -> basename f = f.
Proof.
  destruct f as [|c f]; [done|]. cbn [has_slash basename]. by intros ->.
Qed.

Lemma has_slash_app (dir f : string) :
  has_slash (dir +:+ String Py.SLASH f) = true.
Proof.
  induction dir as [|c dir IH].
  - change ("" +:+ String Py.SLASH f) with (String Py.SLASH f).
    cbn [has_slash]. by rewrite Ascii.eqb_refl.
  - change (String c dir +:+ String Py.SLASH f)
      with (String c (dir +:+ String Py.SLASH f)).
    cbn [has_slash]. rewrite IH. by destruct (Ascii.eqb c Py.SLASH).
Qed.

Lemma basename_join (dir f : string) :
  has_slash f = false -> basename (dir +:+ String Py.SLASH f) = f.
Proof.
  intros Hf. induction dir as [|c dir IH].
  - change ("" +:+ String Py.SLASH f) with (String Py.SLASH f).
    cbn [basename]. rewrite Ascii.eqb_refl. cbn [orb].
    by apply basename_plain.
  - change (String c dir +:+ String Py.SLASH f)
      with (String c (dir +:+ String Py.SLASH f)).
    cbn [basename]. rewrite has_slash_app, orb_true_r. done.
Qed.

Lemma push_destinations (guest : Guest) (source : string)
  (dests : list string) (pushes : list Push) :
  for_each dests (fun dest =>
    modify (fun pushes =>
      (pushes ++ [{| push_guest := guest; push_source := source;
                     push_destination := dest;
                     push_options := ["-p"; "--chmod=755"] |}])%list)) pushes
  = (inr tt,
     (pushes ++ ((fun dest =>
        {| push_guest := guest; push_source := source;
           push_destination := dest;
           push_options := ["-p"; "--chmod=755"] |}) <$> dests))%list).
Proof.
  revert pushes; induction dests as [|dest dests IH]; intros pushes.
  - cbn [for_each fmap list_fmap]. by rewrite app_nil_r.
  - cbn [for_each]. unfold mbind at 1, M_bind at 1, modify at 1.
    rewrite IH, fmap_cons, <-app_assoc. done.
Qed.

Lemma push_scripts (guest : Guest) (scripts : list Script)
  (pushes : list Push) :
  for_each scripts (fun script =>
    let source := Py.path_join SCRIPTS_SRC_DIR (basename (path script)) in
    for_each (path script :: aliases script) (fun dest =>
      modify (fun pushes =>
        (pushes ++ [{| push_guest := guest; push_source := source;
                       push_destination := dest;
                       push_options := ["-p"; "--chmod=755"] |}])%list)))
    pushes
  = (inr tt,
     (pushes ++ (scripts ≫= script_pushes SCRIPTS_SRC_DIR guest))%list).
Proof.
  revert pushes; induction scripts as [|script scripts IH]; intros pushes.
  - cbn [for_each mbind list_bind]. by rewrite app_nil_r.
  - cbn [for_each]. unfold mbind at 1, M_bind at 1. cbv beta zeta.
    pose proof (push_destinations guest
                  (Py.path_join SCRIPTS_SRC_DIR (basename (path script)))
                  (path script :: aliases script) pushes) as Hdests.
    cbn [for_each] in Hdests. rewrite Hdests, IH. cbn [mbind list_bind].
    by rewrite <-app_assoc.
Qed.

(** X18: without scripts, [prepare_scripts] fails its assertion and
    pushes nothing.  With scripts it returns and has pushed, for each
    script in order, the script to its path and then to each of its
    aliases, one push more than the script has aliases, each to the
    given guest with the options [-p] and [--chmod=755].  The source of
    every push of a script is the file with the last component of its
    path as its name, taken from the directory of the scripts: of the
    path only the part after the last slash counts. *)
Theorem prepare_scripts_pushes (scripts : option (list Script))
  (guest : Guest) (pushes : list Push) :
  (scripts = None \/ scripts = Some [] ->
   raises (prepare_scripts SCRIPTS_SRC_DIR scripts guest) pushes
     AssertionError pushes) /\
  (forall ss, scripts = Some ss -> ss <> [] ->
   exists new,
     returns (prepare_scripts SCRIPTS_SRC_DIR scripts guest) pushes tt
       (pushes ++ new)%list /\
     new = ss ≫= script_pushes SCRIPTS_SRC_DIR guest /\
     length new = sum_list ((fun script => S (length (aliases script)))
                              <$> ss) /\
     push_destination <$> new
       = ss ≫= (fun script => path script :: aliases script) /\
     Forall (fun push =>
       push_guest push = guest /\
       push_options push = ["-p"; "--chmod=755"] /\
       exists file, push_source push = Py.path_join SCRIPTS_SRC_DIR file /\
                    has_slash file = false) new) /\
  (forall dir file, has_slash file = false ->
     basename (dir +:+ String Py.SLASH file) = file).
Proof.
  split; [|split].
  - intros [->| ->]; reflexivity.
  - intros ss -> Hss. eexists. split; [|split; [reflexivity|]].
    + unfold returns, prepare_scripts. destruct ss as [|s ss]; [done|].
      apply push_scripts.
    + clear Hss. induction ss as [|script ss (Hlen & Hdest & Hall)].
      { split; [done|]. split; [done|]. constructor. }
      cbn [mbind list_bind]. split; [|split].
      * rewrite length_app, Hlen. unfold script_pushes.
        rewrite length_fmap. done.
      * rewrite fmap_app, Hdest. unfold script_pushes.
        rewrite <-list_fmap_compose.
        change (push_destination ∘ _) with (@id string).
        by rewrite list_fmap_id.
      * apply Forall_app. split; [|done].
        unfold script_pushes. apply Forall_fmap, Forall_forall.
        intros dest _. simpl. split; [done|]. split; [done|].
        eexists. split; [reflexivity|]. apply has_slash_basename.
  - intros dir file. apply basename_join.
Qed.

End PrepareScripts.

End FurtherProperties.

(** * Properties of the export to Nitrate *)

Section ExportProperties.

Import NitrateExport.

Lemma has_slash_append (a b : string) :
  has_slash (a +:+ b) = has_slash a || has_slash b.
Proof.
  induction a as [|c a IH]; [done|].
  change (String c a +:+ b) with (String c (a +:+ b)).
  cbn [has_slash]. rewrite IH. by rewrite orb_assoc.
Qed.

Lemma dot_git_at_end_inv (s : string) :
  dot_git_at_end s = true ->
  exists c rest, s = String c ("git" +:+ rest) /\ c <> Py.LF /\
                 (rest = "" \/ rest = NL).
Proof.
  destruct s as [|c [|g [|i [|t rest]]]]; try done.
  unfold dot_git_at_end. intros H.
  repeat (apply andb_prop in H as [H ?]).
  apply negb_true_iff, Ascii.eqb_neq in H.
  repeat match goal with
         | E : Ascii.eqb _ _ = true |- _ => apply Ascii.eqb_eq in E; subst
         end.
  exists c, rest. split; [done|]. split; [done|].
  match goal with
  | E : _ || _ = true |- _ =>
      apply orb_prop in E as [E|E]; apply bool_decide_eq_true in E; auto
  end.
Qed.

Lemma dot_git_at_end_intro (c : ascii) (rest : string) :
  c <> Py.LF -> rest = "" \/ rest = NL ->
  dot_git_at_end (String c ("git" +:+ rest)) = true.
Proof.
  intros Hc Hrest. change ("git" +:+ rest)
    with (String "g" (String "i" (String "t" rest))).
  unfold dot_git_at_end.
  apply Ascii.eqb_neq in Hc. rewrite Hc. cbn -[bool_decide].
  destruct Hrest as [-> | ->]; done.
Qed.

Lemma sub_dot_git_empty (s : string) :
  sub_dot_git s = "" <->
  s = "" \/ exists c, c <> Py.LF /\ s = String c "git".
Proof.
  split.
  - destruct s as [|x s]; [by left|]. intros H. right.
    cbn [sub_dot_git] in H.
    destruct (dot_git_at_end (String x s)) eqn:E; [|done].
    apply dot_git_at_end_inv in E as (c & rest & Hs & Hc & Hrest).
    change ("git" +:+ rest)
      with (String "g" (String "i" (String "t" rest))) in Hs.
    injection Hs as -> ->. cbn in H. subst rest. by exists c.
  - intros [->|(c & Hc & ->)]; [done|].
    cbn [sub_dot_git].
    change (String c "git") with (String c ("git" +:+ "")).
    rewrite dot_git_at_end_intro; [done|done|by left].
Qed.

Lemma sub_dot_git_suffix (repo : string) (c : ascii) :
  c <> Py.LF -> sub_dot_git (repo +:+ String c "git") = repo.
Proof.
  intros Hc. induction repo as [|x repo IH].
  - change ("" +:+ String c "git") with (String c ("git" +:+ "")).
    cbn [sub_dot_git]. by rewrite dot_git_at_end_intro; [|done|left].
  - change (String x repo +:+ String c "git")
      with (String x (repo +:+ String c "git")).
    cbn [sub_dot_git]. rewrite IH.
    destruct (dot_git_at_end (String x (repo +:+ String c "git"))) eqn:E;
      [|done].
    exfalso. apply dot_git_at_end_inv in E as (c' & rest & Hs & _ & Hrest).
    injection Hs as _ Hs.
    assert (Hlen : String.length (repo +:+ String c "git")
                   = (String.length repo + 4)%nat).
    { clear. induction repo as [|y repo IH]; [done|].
      change (String y repo +:+ String c "git")
        with (String y (repo +:+ String c "git")).
      cbn [String.length]. by rewrite IH. }
    rewrite Hs in Hlen.
    destruct Hrest as [-> | ->].
    + change (String.length ("git" +:+ "")) with 3%nat in Hlen. lia.
    + change (String.length ("git" +:+ NL)) with 4%nat in Hlen.
      destruct repo as [|y repo]; [|cbn [String.length] in Hlen; lia].
      by vm_compute in Hs.
Qed.

(** X19: [find_general_plan] returns the first plan of the search by
    component when that finds any, and else the first plan of the
    search by name; the search by name is made only when the search by
    component found nothing.  Finding several plans raises nothing:
    it fails only when a search fails or both find nothing. *)
Theorem find_general_plan_takes_first {TestPlan : Type}
  (search : PlanQuery -> error + list TestPlan) (component : string) :
  let by_name := ByName (component +:+ " / General") in
  (forall plan,
     find_general_plan search component = inr plan <->
     exists rest,
       search (ByComponent component) = inr (plan :: rest) \/
       (search (ByComponent component) = inr [] /\
        search by_name = inr (plan :: rest))) /\
  (forall e,
     find_general_plan search component = inl e <->
     search (ByComponent component) = inl e \/
     (search (ByComponent component) = inr [] /\
      (search by_name = inl e \/
       (search by_name = inr [] /\
        e = NitrateError ("No general test plan found for '"
                          +:+ component +:+ "'."))))).
Proof.
  intros by_name. unfold find_general_plan. fold by_name.
  destruct (search (ByComponent component)) as [e0|[|plan0 rest0]].
  - split; [intros plan|intros e]; split.
    + done.
    + intros (rest & [H|[H _]]); done.
    + intros [= ->]. by left.
    + intros [[= ->]|[H _]]; done.
  - destruct (search by_name) as [e1|[|plan1 rest1]].
    + split; [intros plan|intros e]; split.
      * done.
      * intros (rest & [H|[_ H]]); done.
      * intros [= ->]. right. split; [done|]. by left.
      * intros [H|[_ [[= ->]|[H _]]]]; done.
    + split; [intros plan|intros e]; split.
      * done.
      * intros (rest & [H|[_ H]]); done.
      * intros [= <-]. right. split; [done|]. by right.
      * intros [H|[_ [H|[_ ->]]]]; done.
    + split; [intros plan|intros e]; split.
      * intros [= ->]. exists rest1. by right.
      * intros (rest & [H|[_ [= -> _]]]); done.
      * done.
      * intros [H|[_ [H|[H _]]]]; done.
  - split; [intros plan|intros e]; split.
    + intros [= ->]. exists rest0. by left.
    + intros (rest & [[= -> _]|[H _]]); done.
    + done.
    + intros [H|[H _]]; done.
Qed.

(** X20: [prepare_extra_summary] fails, with the error about the git
    remote url, exactly when the last component of the url is empty or
    is one character followed by [git], whatever the node says.  For a
    url that ends in a repository name, one character and [git], the
    repository name is kept: the character need not be a dot.  The
    key [extra-summary] of the node, when there, replaces the
    generated summary, to which a summary that is not empty is
    added. *)
Theorem prepare_extra_summary_names_repository
  (tname : string) (summary extra_summary : option string) :
  (forall url e,
     prepare_extra_summary url tname summary extra_summary = inl e <->
     e = ConvertError "Unable to find git remote url." /\
     (basename url = "" \/
      exists c, c <> Py.LF /\ basename url = String c "git")) /\
  (forall prefix repo c,
     repo <> "" -> has_slash repo = false ->
     c <> Py.LF -> c <> Py.SLASH ->
     prepare_extra_summary
       (prefix +:+ String Py.SLASH (repo +:+ String c "git"))
       tname summary extra_summary
     = inr match extra_summary, summary with
           | Some extra, _ => extra
           | None, Some (String x text) =>
               (repo +:+ " " +:+ tname) +:+ " - " +:+ String x text
           | None, _ => repo +:+ " " +:+ tname
           end).
Proof.
  split.
  - intros url e. unfold prepare_extra_summary. cbv zeta.
    case_bool_decide as Hempty.
    + apply sub_dot_git_empty in Hempty. split.
      * by intros [= <-].
      * by intros [-> _].
    + split; [done|]. intros [_ H]. by apply sub_dot_git_empty in H.
  - intros prefix repo c Hrepo Hslash Hc Hc'.
    unfold prepare_extra_summary. cbv zeta.
    rewrite basename_join.
    2:{ rewrite has_slash_append, Hslash. cbn [has_slash orb].
        apply Ascii.eqb_neq in Hc'. by rewrite Hc'. }
    rewrite sub_dot_git_suffix by done.
    rewrite bool_decide_eq_false_2 by done.
    destruct extra_summary as [extra|]; [done|].
    destruct summary as [[|x text]|]; done.
Qed.

Lemma split_LF_cons (s : string) : exists l ls, split_LF s = l :: ls.
Proof.
  induction s as [|c s (l & ls & IH)]; [by eexists _, _|].
  cbn [split_LF]. destruct (Ascii.eqb c Py.LF); [by eexists _, _|].
  rewrite IH. by eexists _, _.
Qed.

Lemma split_LF_plain (s : string) : has_LF s = false -> split_LF s = [s].
Proof.
  induction s as [|c s IH]; [done|]. cbn [has_LF split_LF].
  intros [Hc Hs]%orb_false_elim. rewrite Hc, IH; done.
Qed.

Lemma split_LF_app (a b : string) :
  has_LF a = false -> split_LF (a +:+ NL +:+ b) = a :: split_LF b.
Proof.
  induction a as [|c a IH].
  - intros _. change ("" +:+ NL +:+ b) with (String Py.LF b).
    cbn [split_LF]. by rewrite Ascii.eqb_refl.
  - cbn [has_LF]. intros [Hc Ha]%orb_false_elim.
    change (String c a +:+ NL +:+ b) with (String c (a +:+ NL +:+ b)).
    cbn [split_LF]. rewrite Hc, IH; done.
Qed.

Lemma split_join_LF (l : string) (ls : list string) :
  Forall (fun name => has_LF name = false) (l :: ls) ->
  split_LF (join_LF (l :: ls)) = l :: ls.
Proof.
  revert l. induction ls as [|l' ls IH]; intros l Hall.
  - apply split_LF_plain. by inversion Hall.
  - inversion Hall as [|? ? Hl Hall']; subst.
    change (join_LF (l :: l' :: ls)) with (l +:+ NL +:+ join_LF (l' :: ls)).
    rewrite split_LF_app by done. by rewrite IH.
Qed.

Lemma ends_with_md_spec (line : string) :
  ends_with_md line = true <-> exists stem, line = stem +:+ ".md".
Proof.
  induction line as [|c line IH].
  - split; [done|]. by intros ([|? [|]] & H).
  - cbn [ends_with_md]. rewrite orb_true_iff, bool_decide_eq_true, IH.
    split.
    + intros [->|(stem & ->)]; [by exists ""|by exists (String c stem)].
    + intros ([|x stem] & H).
      * by left.
      * right. exists stem.
        change (String x stem +:+ ".md") with (String x (stem +:+ ".md"))
          in H. by injection H.
Qed.

(** X21: [return_markdown_file], when no name of the listing holds a
    line feed, counts the names that end in [.md] after at least one
    more character: with exactly one such name it returns the name
    joined to the current directory and prints nothing; with none or
    several it returns the empty string and prints one message, which
    for several states their number. *)
Theorem return_markdown_file_needs_one (listing : list string)
  (cwd : string) :
  Forall (fun name => has_LF name = false) listing ->
  let md_files := filter (fun name => is_md_line name) listing in
  (forall name,
     is_md_line name = true <->
     exists stem, stem <> "" /\ name = stem +:+ ".md") /\
  (forall md, md_files = [md] ->
     return_markdown_file listing cwd = (Py.path_join cwd md, [])) /\
  (md_files = [] ->
     return_markdown_file listing cwd
     = ("", ["Markdown file doesn't exist in the current working directory."
             +:+ NL +:+ "Manual steps couldn't be exported"])) /\
  ((1 < length md_files)%nat ->
     return_markdown_file listing cwd
     = ("", [pretty (length md_files)
             +:+ " Markdown files found in the current working directory."
             +:+ NL +:+ "Manual steps couldn't be exported"])).
Proof.
  intros Hall md_files.
  assert (Hfiles :
    filter (fun l => is_md_line l) (split_LF (join_LF listing)) = md_files).
  { destruct listing as [|l ls]; [done|]. by rewrite split_join_LF. }
  split; [|split; [|split]].
  - intros name. unfold is_md_line.
    rewrite andb_true_iff, negb_true_iff, bool_decide_eq_false,
      ends_with_md_spec.
    split.
    + intros [(stem & ->) Hne]. exists stem. split; [|done].
      by intros ->.
    + intros (stem & Hstem & ->). split; [by exists stem|].
      destruct stem as [|x stem]; [done|].
      change (String x stem +:+ ".md") with (String x (stem +:+ ".md")).
      intros [= -> H]. destruct stem as [|a [|b stem]]; [done|done|].
      change (String a (String b stem) +:+ ".md")
        with (String a (String b (stem +:+ ".md"))) in H.
      injection H as _ _ H. by destruct stem.
  - intros md Hmd. unfold return_markdown_file. cbv zeta.
    by rewrite Hfiles, Hmd.
  - intros Hmd. unfold return_markdown_file. cbv zeta.
    by rewrite Hfiles, Hmd.
  - intros Hlen. unfold return_markdown_file. cbv zeta.
    rewrite Hfiles. destruct md_files as [|? [|? ?]]; simpl in Hlen; try lia.
    done.
Qed.

End ExportProperties.

(** * The further properties on the example plans *)

Lemma map_old_methods_old_witness :
  data (step (execute Examples.resumed_plan)) = [Examples.how "beakerlib"] /\
  Examples.how "beakerlib" !! "how" = Some (VStr "beakerlib") /\
  Py.old_method "beakerlib" = Some "beakerlib" /\
  exists q',
    returns Execute_map_old_methods Examples.resumed_plan tt q' /\
    _framework (execute q') = "beakerlib" /\
    length (out (world q')) = 4%nat.
Proof.
  assert (Hd : data (step (execute Examples.resumed_plan))
               = [Examples.how "beakerlib"]) by reflexivity.
  assert (Hh : Examples.how "beakerlib" !! "how" = Some (VStr "beakerlib"))
    by reflexivity.
  assert (Ho : Py.old_method "beakerlib" = Some "beakerlib") by reflexivity.
  split; [exact Hd|]. split; [exact Hh|]. split; [exact Ho|].
  destruct (map_old_methods_old Examples.resumed_plan
              (Examples.how "beakerlib") [] "beakerlib" "beakerlib" Hd Hh Ho)
    as (q' & Hret & _ & Hfw & Hout & _).
  exists q'. split; [exact Hret|]. split; [exact Hfw|].
  rewrite Hout. reflexivity.
Defined.

Lemma wake_adds_one_phase_witness :
  data (step (woken Examples.resumed_plan).1) = [Examples.how "beakerlib"] /\
  Examples.how "beakerlib" !! "how" = Some (VStr "beakerlib") /\
  (forall c,
     delegate c
       (normalized (Examples.how "beakerlib")
          (_framework (woken Examples.resumed_plan).1)).1
     = inr Reference.executor) /\
  exists p',
    returns Execute_wake Examples.resumed_plan tt p' /\
    _phases (step (execute p')) = [Reference.executor] /\
    status (step (execute p')) = Some "done".
Proof.
  assert (Hd : data (step (woken Examples.resumed_plan).1)
               = [Examples.how "beakerlib"]) by reflexivity.
  assert (Hh : Examples.how "beakerlib" !! "how" = Some (VStr "beakerlib"))
    by reflexivity.
  assert (Hdel : forall c,
     delegate c
       (normalized (Examples.how "beakerlib")
          (_framework (woken Examples.resumed_plan).1)).1
     = inr Reference.executor) by (intros c; reflexivity).
  split; [exact Hd|]. split; [exact Hh|]. split; [exact Hdel|].
  destruct (wake_adds_one_phase Examples.resumed_plan
              (Examples.how "beakerlib") "beakerlib" Reference.executor
              Hd Hh Hdel)
    as (p' & Hret & Hph & _ & _ & Hdone & _).
  exists p'. split; [exact Hret|]. split; [exact Hph|].
  exact (proj1 (Hdone eq_refl)).
Defined.

Lemma wake_unresolved_witness :
  data (step (woken FurtherExamples.unknown_plan).1)
    = [Examples.how "restraint"] /\
  Examples.how "restraint" !! "how" = Some (VStr "restraint") /\
  (forall c,
     delegate c
       (normalized (Examples.how "restraint")
          (_framework (woken FurtherExamples.unknown_plan).1)).1
     = inl (SpecificationError "Unsupported execute method.")) /\
  exists p',
    raises Execute_wake FurtherExamples.unknown_plan
      (SpecificationError "Unsupported execute method.") p' /\
    _phases (step (execute p')) = [] /\
    status (step (execute p')) = None /\
    calls p' = [CallDelegate (Examples.how "restraint")].
Proof.
  assert (Hd : data (step (woken FurtherExamples.unknown_plan).1)
               = [Examples.how "restraint"]) by reflexivity.
  assert (Hh : Examples.how "restraint" !! "how" = Some (VStr "restraint"))
    by reflexivity.
  assert (Hdel : forall c,
     delegate c
       (normalized (Examples.how "restraint")
          (_framework (woken FurtherExamples.unknown_plan).1)).1
     = inl (SpecificationError "Unsupported execute method."))
    by (intros c; reflexivity).
  split; [exact Hd|]. split; [exact Hh|]. split; [exact Hdel|].
  destruct (wake_unresolved FurtherExamples.unknown_plan
              (Examples.how "restraint") "restraint"
              (SpecificationError "Unsupported execute method.")
              Hd Hh Hdel)
    as (p' & Hraise & Hph & Hst & Hcalls & _).
  exists p'. split; [exact Hraise|]. split; [exact Hph|].
  split; [exact Hst|exact Hcalls].
Defined.

Lemma load_replaces_results_witness :
  files (Step_load [] (step (execute FurtherExamples.saved_plan))
           (world FurtherExamples.saved_plan)).2
    !! results_yaml (Step_load [] (step (execute FurtherExamples.saved_plan))
                       (world FurtherExamples.saved_plan)).1
    = Some (dict_to_yaml (results_store (execute Examples.done_plan))) /\
  yaml_to_dict (dict_to_yaml (results_store (execute Examples.done_plan)))
    = inr (results_store (execute Examples.done_plan)) /\
  exists p',
    returns (Execute_load []) FurtherExamples.saved_plan tt p' /\
    Execute_results (execute p') = [Examples.passed; Examples.timed_out].
Proof.
  assert (Hfile :
    files (Step_load [] (step (execute FurtherExamples.saved_plan))
             (world FurtherExamples.saved_plan)).2
      !! results_yaml
           (Step_load [] (step (execute FurtherExamples.saved_plan))
              (world FurtherExamples.saved_plan)).1
      = Some (dict_to_yaml (results_store (execute Examples.done_plan))))
    by reflexivity.
  assert (Hyaml :
    yaml_to_dict (dict_to_yaml (results_store (execute Examples.done_plan)))
    = inr (results_store (execute Examples.done_plan))).
  { vm_compute. reflexivity. }
  split; [exact Hfile|]. split; [exact Hyaml|].
  destruct (load_replaces_results FurtherExamples.saved_plan [] _ _
              Hfile Hyaml) as (p' & Hret & Hres & _).
  exists p'. split; [exact Hret|]. rewrite Hres. reflexivity.
Defined.

Lemma load_parse_errors_witness :
  files (Step_load [] (step (execute FurtherExamples.torn_plan))
           (world FurtherExamples.torn_plan)).2
    !! results_yaml (Step_load [] (step (execute FurtherExamples.torn_plan))
                       (world FurtherExamples.torn_plan)).1
    = Some "results" /\
  yaml_to_dict "results" = inl (GeneralError "Invalid yaml.") /\
  exists p',
    raises (Execute_load []) FurtherExamples.torn_plan
      (GeneralError "Invalid yaml.") p' /\
    Execute_results (execute p') = [].
Proof.
  assert (Hfile :
    files (Step_load [] (step (execute FurtherExamples.torn_plan))
             (world FurtherExamples.torn_plan)).2
      !! results_yaml
           (Step_load [] (step (execute FurtherExamples.torn_plan))
              (world FurtherExamples.torn_plan)).1
      = Some "results") by reflexivity.
  assert (Hyaml : yaml_to_dict "results" = inl (GeneralError "Invalid yaml."))
    by reflexivity.
  split; [exact Hfile|]. split; [exact Hyaml|].
  destruct (load_parse_errors FurtherExamples.torn_plan [] "results"
              (GeneralError "Invalid yaml.") Hfile Hyaml)
    as (p' & Hres & _ & _ & _ & Hraise).
  exists p'. split; [|exact Hres].
  apply Hraise. discriminate.
Defined.

Lemma load_after_save_witness :
  load_only_reads (Ext := Reference.State) /\
  yaml_to_dict
    (dict_to_yaml (results_store (execute FurtherExamples.repeated_plan)))
    = inr (results_store (execute FurtherExamples.repeated_plan)) /\
  exists p1 p2,
    returns (Execute_save ∅) FurtherExamples.repeated_plan tt p1 /\
    returns (Execute_load []) (set_execute (set_results []) p1) tt p2 /\
    Execute_results (execute p2)
      = [FurtherExamples.failed_again; Examples.timed_out].
Proof.
  assert (Hyaml :
    yaml_to_dict
      (dict_to_yaml (results_store (execute FurtherExamples.repeated_plan)))
    = inr (results_store (execute FurtherExamples.repeated_plan))).
  { vm_compute. reflexivity. }
  split; [exact reference_load_only_reads|]. split; [exact Hyaml|].
  destruct (load_after_save FurtherExamples.repeated_plan ∅ []
              reference_load_only_reads Hyaml)
    as (p1 & Hsave & He & _ & _ & Hload).
  destruct (Hload (set_execute (set_results []) p1) eq_refl)
    as (p2 & Hret & Hres & _).
  { simpl. rewrite He. reflexivity. }
  exists p1, p2. split; [exact Hsave|]. split; [exact Hret|].
  rewrite Hres. vm_compute. reflexivity.
Defined.

Lemma go_saves_results_witness :
  status (step (execute Examples.ready_plan)) <> Some "done" /\
  guests Examples.ready_plan <> [] /\
  phases_return (step (execute Examples.ready_plan)) /\
  exists p' content,
    returns Execute_go Examples.ready_plan tt p' /\
    results_file_of p' = Some content /\
    yaml_to_dict content = inr (results_store (execute p')).
Proof.
  assert (Hs : status (step (execute Examples.ready_plan)) <> Some "done")
    by discriminate.
  assert (Hg : guests Examples.ready_plan <> []) by discriminate.
  assert (Hret : phases_return (step (execute Examples.ready_plan))).
  { intros ph g w Hin. apply list_elem_of_singleton in Hin. subst ph.
    reflexivity. }
  split; [exact Hs|]. split; [exact Hg|]. split; [exact Hret|].
  destruct (go_saves_results Examples.ready_plan Hs Hg Hret)
    as (p' & Hgo & Hfile & _).
  exists p', (dict_to_yaml (results_store (execute p'))).
  split; [exact Hgo|]. split; [exact Hfile|].
  unfold returns in Hgo.
  assert (Hp : p' = (Execute_go Examples.ready_plan).2) by (by rewrite Hgo).
  rewrite Hp. vm_compute. reflexivity.
Defined.

Lemma go_stops_at_first_raise_witness :
  status (step (execute FurtherExamples.failing_plan)) <> Some "done" /\
  guests FurtherExamples.failing_plan <> [] /\
  exists p',
    raises Execute_go FurtherExamples.failing_plan
      (GeneralError "Command failed.") p' /\
    calls p' =
      [CallPhaseGo Reference.executor (Some "client");
       CallPhaseGo (FurtherExamples.failing ExecutePluginClass)
         (Some "client")] /\
    length (Execute_results (execute p')) = 1%nat /\
    status (step (execute p')) = Some "todo".
Proof.
  assert (Hs : status (step (execute FurtherExamples.failing_plan))
               <> Some "done") by discriminate.
  assert (Hg : guests FurtherExamples.failing_plan <> []) by discriminate.
  split; [exact Hs|]. split; [exact Hg|].
  set (fail := FurtherExamples.failing ExecutePluginClass).
  assert (Hinv :
    invocations (guests FurtherExamples.failing_plan)
      (_phases (step (execute FurtherExamples.failing_plan)))
    = ([("client", Reference.executor)] ++
       ("client", fail) ::
       [("server", Reference.executor); ("server", fail)])%list)
    by reflexivity.
  assert (Hbefore : forall (gp' : Guest * Phase Reference.State) w,
    gp' ∈ [("client", Reference.executor)] ->
    (ph_go gp'.2 (Some gp'.1) w).1 = inr tt).
  { intros gp' w Hin. apply list_elem_of_singleton in Hin. subst gp'.
    reflexivity. }
  assert (Hfail :
    (ph_go ("client", fail).2 (Some ("client", fail).1)
       (gathered [("client", Reference.executor)]
          (Step_go (step (execute FurtherExamples.failing_plan))
             (world FurtherExamples.failing_plan))).2).1
    = inl (GeneralError "Command failed.")) by reflexivity.
  destruct (go_stops_at_first_raise FurtherExamples.failing_plan
              [("client", Reference.executor)]
              [("server", Reference.executor); ("server", fail)]
              ("client", fail) (GeneralError "Command failed.")
              Hs Hg Hinv Hbefore Hfail)
    as (p' & Hraise & Hcalls & Hres & Hst & _).
  exists p'. split; [exact Hraise|]. split; [exact Hcalls|].
  split; [rewrite Hres; reflexivity|exact Hst].
Defined.

Lemma report_go_runs_all_witness :
  status (rstep (report FurtherExamples.reported_plan)) <> Some "done" /\
  exists p',
    returns Report_go FurtherExamples.reported_plan tt p' /\
    calls p' = [CallPhaseGo FurtherExamples.display None;
                CallPhaseGo FurtherExamples.display None] /\
    status (rstep (report p')) = Some "done".
Proof.
  set (p := FurtherExamples.reported_plan).
  assert (Hs : status (rstep (report p)) <> Some "done") by discriminate.
  assert (Hret : forall ph w, ph ∈ _phases (rstep (report p)) ->
                              (ph_go ph None w).1 = inr tt).
  { intros ph w Hin. apply list_elem_of_lookup in Hin as (i & Hi).
    destruct i as [|[|i]]; [| |done]; injection Hi as <-; reflexivity. }
  split; [exact Hs|].
  destruct (report_go_runs_all p Hs Hret) as (p' & Hgo & Hcalls & Hst & _).
  exists p'. split; [exact Hgo|]. split; [exact Hcalls|exact Hst].
Defined.

Lemma report_go_stops_at_first_raise_witness :
  status (rstep (report FurtherExamples.failing_report_plan)) <> Some "done" /\
  exists p',
    raises Report_go FurtherExamples.failing_report_plan (GeneralError "Command failed.") p' /\
    calls p' = [CallPhaseGo FurtherExamples.display None;
                CallPhaseGo (FurtherExamples.failing ReportPluginClass) None]
    /\
    status (rstep (report p')) = Some "todo".
Proof.
  set (p := FurtherExamples.failing_report_plan).
  assert (Hs : status (rstep (report p)) <> Some "done") by discriminate.
  assert (Hps : _phases (rstep (report p))
    = ([FurtherExamples.display] ++
       FurtherExamples.failing ReportPluginClass ::
       [FurtherExamples.display])%list) by reflexivity.
  assert (Hbefore : forall (ph' : Phase Reference.State) w,
    ph' ∈ [FurtherExamples.display] -> (ph_go ph' None w).1 = inr tt).
  { intros ph' w Hin. apply list_elem_of_singleton in Hin. subst ph'.
    reflexivity. }
  assert (Hfail :
    (ph_go (FurtherExamples.failing ReportPluginClass) None
       (after_report_phases [FurtherExamples.display]
          (Step_go (rstep (report p)) (world p)))).1
    = inl (GeneralError "Command failed.")) by reflexivity.
  split; [exact Hs|].
  destruct (report_go_stops_at_first_raise p [FurtherExamples.display]
              [FurtherExamples.display]
              (FurtherExamples.failing ReportPluginClass)
              (GeneralError "Command failed.") Hs Hps Hbefore Hfail)
    as (p' & Hraise & Hcalls & Hrep & _).
  exists p'. split; [exact Hraise|]. split; [exact Hcalls|].
  rewrite Hrep. reflexivity.
Defined.

Lemma report_wake_resolves_witness :
  (forall c d,
     d ∈ data (rstep (report_woken FurtherExamples.Report_Step_wake FurtherExamples.displayed_plan).1) ->
     FurtherExamples.ReportPlugin_delegate c d
     = inr FurtherExamples.display) /\
  exists p',
    returns (Report_wake FurtherExamples.Report_Step_wake
               FurtherExamples.ReportPlugin_delegate) FurtherExamples.displayed_plan tt p' /\
    _phases (rstep (report p'))
      = [FurtherExamples.display; FurtherExamples.display] /\
    length (calls p') = 4%nat.
Proof.
  set (p := FurtherExamples.displayed_plan).
  assert (Hres : forall c d,
     d ∈ data (rstep (report_woken FurtherExamples.Report_Step_wake p).1) ->
     FurtherExamples.ReportPlugin_delegate c d
     = inr ((fun _ => FurtherExamples.display) d)).
  { intros c d Hin. apply list_elem_of_lookup in Hin as (i & Hi).
    destruct i as [|[|i]]; [| |done]; injection Hi as <-; reflexivity. }
  split; [exact Hres|].
  destruct (report_wake_resolves_every_record
              FurtherExamples.Report_Step_wake
              FurtherExamples.ReportPlugin_delegate p
              (fun _ => FurtherExamples.display) Hres)
    as (p' & Hret & Hph & Hcalls & _).
  exists p'. split; [exact Hret|]. split; [exact Hph|].
  rewrite Hcalls. reflexivity.
Defined.

Lemma report_wake_unresolved_witness :
  (forall c, FurtherExamples.ReportPlugin_delegate c (Examples.how "html")
             = inl (SpecificationError "Unsupported report method.")) /\
  exists p',
    raises (Report_wake FurtherExamples.Report_Step_wake
              FurtherExamples.ReportPlugin_delegate) FurtherExamples.html_plan
      (SpecificationError "Unsupported report method.") p' /\
    _phases (rstep (report p')) = [FurtherExamples.display] /\
    calls p' = [CallDelegate (Examples.how "display");
                CallPhaseWake FurtherExamples.display;
                CallDelegate (Examples.how "html")].
Proof.
  set (p := FurtherExamples.html_plan).
  assert (Hd :
    data (rstep (report_woken FurtherExamples.Report_Step_wake p).1)
    = ([Examples.how "display"] ++
       Examples.how "html" :: [Examples.how "display"])%list)
    by reflexivity.
  assert (Hbefore : forall c d',
    d' ∈ [Examples.how "display"] ->
    FurtherExamples.ReportPlugin_delegate c d'
    = inr ((fun _ => FurtherExamples.display) d')).
  { intros c d' Hin. apply list_elem_of_singleton in Hin. subst d'.
    reflexivity. }
  assert (Hfail : forall c,
    FurtherExamples.ReportPlugin_delegate c (Examples.how "html")
    = inl (SpecificationError "Unsupported report method."))
    by (intros c; reflexivity).
  split; [exact Hfail|].
  destruct (report_wake_unresolved
              FurtherExamples.Report_Step_wake
              FurtherExamples.ReportPlugin_delegate p
              (fun _ => FurtherExamples.display)
              [Examples.how "display"] [Examples.how "display"]
              (Examples.how "html")
              (SpecificationError "Unsupported report method.")
              Hd Hbefore Hfail)
    as (p' & Hraise & Hph & Hcalls & _).
  exists p'. split; [exact Hraise|]. split; [exact Hph|exact Hcalls].
Defined.

Lemma return_markdown_file_witness :
  Forall (fun name => NitrateExport.has_LF name = false)
    ["main.fmf"; "test.md"; "runtest.sh"] /\
  NitrateExport.return_markdown_file
    ["main.fmf"; "test.md"; "runtest.sh"] "/tests/smoke"
  = ("/tests/smoke/test.md", []).
Proof.
  assert (Hall : Forall (fun name => NitrateExport.has_LF name = false)
                   ["main.fmf"; "test.md"; "runtest.sh"]).
  { repeat constructor. }
  split; [exact Hall|].
  destruct (return_markdown_file_needs_one
              ["main.fmf"; "test.md"; "runtest.sh"] "/tests/smoke" Hall)
    as (_ & Hone & _).
  exact (Hone "test.md" eq_refl).
Defined.
